(** * Shallow embedding of the setup pipeline of src/src/module.ts (the
    [@prisma/nuxt] module, lines 284-719, and the steps of the older
    version of the module in lines 1-282).

    The module's [setup] runs a sequence of prompt-gated steps that call an
    external CLI ([execa]), spawn a detached process ([spawn]), ask yes/no
    questions ([prompts]) and read/write files ([fs]).  These collaborators
    are opaque: they are modelled as oracles in an environment record, and
    every call the code makes to them is recorded in a trace of events.

    The code runs sequentially ([await] after each call), with JavaScript
    exceptions.  It is modelled in a state / exception / trace monad:
    [M A := world -> result A * world * list event], where [world] is the
    file system, [result] is a normal return or a thrown exception and the
    list is the events emitted by the computation. *)

From Stdlib Require Import String Ascii List Bool Arith NArith Lia.
Import ListNotations.
Open Scope string_scope.
Open Scope list_scope.

(** ** Strings *)

Definition nl : string := String (ascii_of_nat 10) EmptyString.
Definition dq : string := String (ascii_of_nat 34) EmptyString.

(** *** JavaScript strings

    [fs.readFileSync(p, "utf-8")] decodes the bytes of a file into a
    JavaScript string and [fs.writeFileSync(p, s)] encodes the string [s]
    in UTF-8.  A JavaScript string is modelled as its list of code points:
    the decoder never produces a lone surrogate, so this is the UTF-16
    string up to the pairing of surrogates. *)
Definition jsstring := list N.

(** A string literal of the module as a JavaScript string (the literals
    this embedding uses are ASCII, one code point per character). *)
Definition js (s : string) : jsstring := map N_of_ascii (list_ascii_of_string s).

(** The UTF-8 decoder of the WHATWG Encoding standard, which Node's
    [buffer.toString("utf8")] follows: a byte that cannot start or continue
    a sequence gives U+FFFD (one per maximal ill-formed subpart), and the
    byte that interrupted a sequence is read again as a first byte.
    [utf8_lead b] is the code point of a one-byte sequence, or the number of
    continuation bytes a first byte [b] needs, its bits, and the bounds of
    the next byte. *)
Definition utf8_lead (b : N) : N + (nat * N * N * N) :=
  if (b <=? 127)%N then inl b
  else if ((194 <=? b) && (b <=? 223))%N then inr (1%nat, (b - 192)%N, 128%N, 191%N)
  else if ((224 <=? b) && (b <=? 239))%N then
    inr (2%nat, (b - 224)%N, (if (b =? 224)%N then 160 else 128)%N,
         (if (b =? 237)%N then 159 else 191)%N)
  else if ((240 <=? b) && (b <=? 244))%N then
    inr (3%nat, (b - 240)%N, (if (b =? 240)%N then 144 else 128)%N,
         (if (b =? 244)%N then 143 else 191)%N)
  else inl 65533%N.

(** [utf8_dec needed cp lo hi bs]: [needed] continuation bytes are still
    expected, [cp] holds the bits read so far and the next one must lie in
    [[lo, hi]]. *)
Fixpoint utf8_dec (needed : nat) (cp lo hi : N) (bs : list N) : jsstring :=
  match bs with
  | [] => if Nat.eqb needed 0 then [] else [65533%N]
  | b :: bs' =>
      let from_lead :=
        match utf8_lead b with
        | inl c => c :: utf8_dec 0 0%N 128%N 191%N bs'
        | inr (n, c, l, h) => utf8_dec n c l h bs'
        end in
      if Nat.eqb needed 0 then from_lead
      else if ((b <? lo) || (hi <? b))%N then 65533%N :: from_lead
      else
        let cp' := (cp * 64 + (b - 128))%N in
        if Nat.eqb needed 1 then cp' :: utf8_dec 0 0%N 128%N 191%N bs'
        else utf8_dec (Nat.pred needed) cp' 128%N 191%N bs'
  end.

Definition bytes (s : string) : list N := map N_of_ascii (list_ascii_of_string s).

Definition utf8_decode (s : string) : jsstring := utf8_dec 0 0%N 128%N 191%N (bytes s).

(** UTF-8 encoding of one code point (a lone surrogate is written as
    U+FFFD), and of a string. *)
Definition utf8_encode_cp (c0 : N) : list N :=
  let c := if ((55296 <=? c0) && (c0 <=? 57343))%N then 65533%N else c0 in
  if (c <? 128)%N then [c]
  else if (c <? 2048)%N then [(192 + c / 64)%N; (128 + c mod 64)%N]
  else if (c <? 65536)%N then
    [(224 + c / 4096)%N; (128 + (c / 64) mod 64)%N; (128 + c mod 64)%N]
  else [(240 + c / 262144)%N; (128 + (c / 4096) mod 64)%N;
        (128 + (c / 64) mod 64)%N; (128 + c mod 64)%N].

Definition utf8_encode (s : jsstring) : string :=
  string_of_list_ascii (map ascii_of_N (flat_map utf8_encode_cp s)).

(** [String.prototype.trim] strips ECMAScript's WhiteSpace and
    LineTerminator code points at both ends: tab, line feed, vertical tab,
    form feed, carriage return, space, U+00A0, U+1680, U+2000-U+200A,
    U+2028, U+2029, U+202F, U+205F, U+3000 and U+FEFF. *)
Definition is_js_space (c : N) : bool :=
  (((9 <=? c) && (c <=? 13)) || (c =? 32) || (c =? 160) || (c =? 5760)
   || ((8192 <=? c) && (c <=? 8202)) || (c =? 8232) || (c =? 8233)
   || (c =? 8239) || (c =? 8287) || (c =? 12288) || (c =? 65279))%N.

Fixpoint trim_start (s : jsstring) : jsstring :=
  match s with
  | [] => []
  | c :: s' => if is_js_space c then trim_start s' else s
  end.

Definition trim_end (s : jsstring) : jsstring := rev (trim_start (rev s)).

Definition trim (s : jsstring) : jsstring := trim_end (trim_start s).

(** ** Paths and the file system *)

(** A path is its list of segments; [createResolver(rootDir).resolve(a, b)]
    appends segments to the project root, a relative path such as ["lib"]
    is taken from the process' working directory. *)
Definition path := list string.

Definition path_eqb (p q : path) : bool :=
  if list_eq_dec string_dec p q then true else false.

Record world := mkWorld {
  files : list (path * string);   (** regular files and their bytes *)
  dirs : list path                (** existing directories *)
}.

Fixpoint lookup (fs : list (path * string)) (p : path) : option string :=
  match fs with
  | [] => None
  | (q, c) :: fs' => if path_eqb p q then Some c else lookup fs' p
  end.

Fixpoint update (fs : list (path * string)) (p : path) (c : string)
  : list (path * string) :=
  match fs with
  | [] => [(p, c)]
  | (q, c') :: fs' => if path_eqb p q then (q, c) :: fs' else (q, c') :: update fs' p c
  end.

Definition is_dir (w : world) (p : path) : bool := existsb (path_eqb p) (dirs w).

Definition is_file (w : world) (p : path) : bool :=
  match lookup (files w) p with Some _ => true | None => false end.

(** [fs.existsSync]: a file or a directory is there. *)
Definition path_exists (w : world) (p : path) : bool := is_file w p || is_dir w p.

(** [fs.writeFileSync] needs the parent directory (ENOENT otherwise) and
    fails on a directory (EISDIR). *)
Definition can_write (w : world) (p : path) : bool :=
  is_dir w (removelast p) && negb (is_dir w p).

(** [fs.mkdirSync] (not recursive) needs the parent and fails on an
    existing path (EEXIST). *)
Definition can_mkdir (w : world) (p : path) : bool :=
  is_dir w (removelast p) && negb (path_exists w p).

(** ** Events: the calls the module makes to the outside world *)

(** An [execa]/[spawn] command line with its [cwd] option. *)
Record cmd := mkCmd { c_file : string; c_args : list string; c_cwd : path }.

(** The tab object pushed in the ["devtools:customTabs"] hook. *)
Record tab := mkTab {
  tab_name : string;
  tab_title : string;
  tab_icon : string;
  tab_category : string;
  view_type : string;
  view_src : string;
  view_persistent : bool
}.

Inductive event :=
  | EvExec (c : cmd)                    (** [await execa(file, args, {cwd})] *)
  | EvSpawn (c : cmd)                   (** [spawn(file, args, {cwd})] *)
  | EvPrompt (name message : string)    (** [await prompts({type: "confirm", ...})] *)
  | EvExists (p : path)                 (** [fs.existsSync(p)] *)
  | EvRead (p : path)                   (** [fs.readFileSync(p, "utf-8")] *)
  | EvWrite (p : path) (contents : string) (** [fs.writeFileSync(p, s)], the bytes written *)
  | EvMkdir (p : path)                  (** [fs.mkdirSync(p)] *)
  | EvHook (t : tab)                    (** [nuxt.hooks.hook("devtools:customTabs", ...)] *)
  | EvLog (msg : string)                (** [console.log(msg)] *)
  | EvSuccess (msg : string)            (** [success(msg)]: a green console.log *)
  | EvError (msg : string).             (** [error(msg)]: a red console.error *)

(** ** The monad *)

Inductive result (A : Type) := Ok (a : A) | Exc (e : string).
Arguments Ok {A} a.
Arguments Exc {A} e.

Definition M (A : Type) := world -> result A * world * list event.

Definition ret {A} (a : A) : M A := fun w => (Ok a, w, []).

Definition bind {A B} (m : M A) (k : A -> M B) : M B := fun w =>
  match m w with
  | (Ok a, w1, t1) => let '(r, w2, t2) := k a w1 in (r, w2, t1 ++ t2)
  | (Exc e, w1, t1) => (Exc e, w1, t1)
  end.

Notation "x <- m ;; k" := (bind m (fun x => k))
  (at level 61, m at next level, right associativity).
Notation "m ;; k" := (bind m (fun _ => k))
  (at level 61, right associativity).

Definition throw {A} (e : string) : M A := fun w => (Exc e, w, []).

(** [try { m } catch (e) { h(e) }] *)
Definition trycatch {A} (m : M A) (h : string -> M A) : M A := fun w =>
  match m w with
  | (Exc e, w1, t1) => let '(r, w2, t2) := h e w1 in (r, w2, t1 ++ t2)
  | x => x
  end.

Definition emit (e : event) : M unit := fun w => (Ok tt, w, [e]).

Definition res_of {A} (x : result A * world * list event) : result A :=
  let '(r, _, _) := x in r.
Definition world_of {A} (x : result A * world * list event) : world :=
  let '(_, w, _) := x in w.
Definition trace_of {A} (x : result A * world * list event) : list event :=
  let '(_, _, t) := x in t.

(** ** The environment and the module options *)

(** What the module receives from its host: the project root
    ([nuxt.options.rootDir]), the process' working directory, the two
    environment variables it reads, and the opaque collaborators.
    - [exec_oracle c w] is what [execa] does with command [c] in world [w]:
      the world afterwards and [Some stdout] when the process succeeds,
      [None] when the promise rejects (non-zero exit, missing binary, ...);
    - [spawn_oracle c] is what becomes of the process [spawn] starts:
      [SpawnThrows] when [spawn] throws, [SpawnExits ok] when it returns a
      [ChildProcess] that later exits with success ([ok]) or not.  The
      module awaits the returned object, which is no promise, so it goes on
      at once and never sees the exit.  A child that cannot start at all
      (ENOENT) reports it through an asynchronous ['error'] event, for which
      the module installs no listener: Node raises it as an uncaught
      exception outside the module's control flow, which the monad does not
      model;
    - [prompt_answer name] is [response?.[name] === true] for the confirm
      prompt of that name. *)
Inductive spawn_outcome := SpawnThrows | SpawnExits (ok : bool).

Record env := mkEnv {
  rootDir : path;
  cwd : path;
  npm_lifecycle_event : option string;
  SKIP_PRISMA_SETUP : option string;
  exec_oracle : cmd -> world -> world * option string;
  spawn_oracle : cmd -> spawn_outcome;
  prompt_answer : string -> bool
}.

(** [PrismaExtendedModule]: the flags the pipeline reads, with the
    connection string and the logging options it forwards to the runtime. *)
Record ModuleOptions := mkOptions {
  datasourceUrl : option string;
  log : list string;
  errorFormat : string;
  installCli : bool;
  initPrisma : bool;
  writeToSchema : bool;
  formatSchema : bool;
  runMigration : bool;
  installClient : bool;
  generateClient : bool;
  installStudio : bool;
  skipInstallations : bool;
  autoSetupPrisma : bool
}.

(** The module's [defaults]. *)
Definition defaults (DATABASE_URL : option string) : ModuleOptions :=
  {| datasourceUrl := DATABASE_URL; log := []; errorFormat := "colorless";
     installCli := true; initPrisma := true; writeToSchema := true;
     formatSchema := true; runMigration := true; installClient := true;
     generateClient := true; installStudio := true;
     skipInstallations := false; autoSetupPrisma := false |}.

(** JavaScript truthiness of an environment variable (a string or
    [undefined]). *)
Definition truthy (v : option string) : bool :=
  match v with Some s => negb (String.eqb s "") | None => false end.

Definition lifecycle_is (E : env) (s : string) : bool :=
  match npm_lifecycle_event E with Some s' => String.eqb s' s | None => false end.

(** [force_skip_prisma_setup]: [(SKIP_PRISMA_SETUP ?? false) || npm_lifecycle_event === "test"] *)
Definition force_skip_prisma_setup (E : env) : bool :=
  truthy (SKIP_PRISMA_SETUP E) || lifecycle_is E "test".

(** The condition guarding [promptInstallStudio] in [setupPrismaORM]. *)
Definition studio_allowed (E : env) : bool :=
  negb (lifecycle_is E "dev:prepare") && negb (lifecycle_is E "postinstall")
  && negb (lifecycle_is E "test").

(** ** Fixed texts of the module *)

Definition addModel : string :=
  nl ++
  "            model User {" ++ nl ++
  "              id    Int     @id @default(autoincrement())" ++ nl ++
  "              email String  @unique" ++ nl ++
  "              name  String?" ++ nl ++
  "              posts Post[]" ++ nl ++
  "            }" ++ nl ++
  nl ++
  "            model Post {" ++ nl ++
  "              id        Int     @id @default(autoincrement())" ++ nl ++
  "              title     String" ++ nl ++
  "              content   String?" ++ nl ++
  "              published Boolean @default(false)" ++ nl ++
  "              author    User    @relation(fields: [authorId], references: [id])" ++ nl ++
  "              authorId  Int" ++ nl ++
  "            }" ++ nl ++
  "          ".

Definition prismaClient : string :=
  "import { PrismaClient } from " ++ dq ++ "@prisma/client" ++ dq ++ nl ++
  "const globalForPrisma = global as unknown as { prisma: PrismaClient }" ++ nl ++
  nl ++
  "export const prisma = globalForPrisma.prisma || new PrismaClient()" ++ nl ++
  nl ++
  "if (process.env.NODE_ENV !== 'production') globalForPrisma.prisma = prisma" ++ nl ++
  nl ++
  "export default prisma" ++ nl ++
  "    ".

Definition studioInstalledMsg : string :=
  "Prisma Studio installed. After clicking 'Get Started' in Nuxt DevTools," ++ nl ++
  "  click on the three dots in the lower left-hand side to reveal additional tabs." ++ nl ++
  "  Locate the Prisma logo to open Prisma Studio.".

(** The template literal logged when the schema exists; its [\n] escapes
    are newlines and its escaped backquotes are backquotes. *)
Definition schemaExistsMsg : string :=
  "Please make sure to: " ++ nl ++
  " 1. Set the DATABASE_URL in the `.env` file to point to your existing database. If your database has no tables yet, read https://pris.ly/d/getting-started" ++ nl ++
  "        " ++ nl ++
  " 2. Set the provider of the datasource block in `schema.prisma` to match your database: postgresql, mysql, sqlite, sqlserver, mongodb, or cockroachdb." ++ nl ++
  "        " ++ nl ++
  " 3. Run prisma db pull to turn your database schema into a Prisma schema.".

(** The Prisma Studio tab pushed in the ["devtools:customTabs"] hook. *)
Definition studioTab : tab :=
  {| tab_name := "nuxt-prisma"; tab_title := "Prisma Studio";
     tab_icon := "simple-icons:prisma"; tab_category := "server";
     view_type := "iframe"; view_src := "http://localhost:5555/";
     view_persistent := true |}.

(** ** The module's setup pipeline *)

Section Setup.

Variable E : env.
Variable options : ModuleOptions.

(** *** Primitives *)

Definition execa (c : cmd) : M string := fun w =>
  let '(w', out) := exec_oracle E c w in
  match out with
  | Some stdout => (Ok stdout, w', [EvExec c])
  | None => (Exc "execa: command failed", w', [EvExec c])
  end.

Definition spawn (c : cmd) : M unit := fun w =>
  match spawn_oracle E c with
  | SpawnThrows => (Exc "spawn failed", w, [EvSpawn c])
  | SpawnExits _ => (Ok tt, w, [EvSpawn c])
  end.

(** [(await prompts({type: "confirm", name, message, initial: true}))?.[name] === true] *)
Definition prompts (name message : string) : M bool := fun w =>
  (Ok (prompt_answer E name), w, [EvPrompt name message]).

Definition existsSync (p : path) : M bool := fun w =>
  (Ok (path_exists w p), w, [EvExists p]).

Definition readFileSync (p : path) : M jsstring := fun w =>
  match lookup (files w) p with
  | Some c => (Ok (utf8_decode c), w, [EvRead p])
  | None => (Exc "ENOENT: no such file", w, [EvRead p])
  end.

Definition writeFileSync (p : path) (data : jsstring) : M unit := fun w =>
  if can_write w p
  then (Ok tt, mkWorld (update (files w) p (utf8_encode data)) (dirs w),
        [EvWrite p (utf8_encode data)])
  else (Exc "cannot write file", w, [EvWrite p (utf8_encode data)]).

Definition mkdirSync (p : path) : M unit := fun w =>
  if can_mkdir w p
  then (Ok tt, mkWorld (files w) (p :: dirs w), [EvMkdir p])
  else (Exc "cannot create directory", w, [EvMkdir p]).

Definition console_log (msg : string) : M unit := emit (EvLog msg).
Definition success (msg : string) : M unit := emit (EvSuccess msg).
Definition error (msg : string) : M unit := emit (EvError msg).

(** [nuxt.hooks.hook("devtools:customTabs", (tab) => { tab.push(t) })] *)
Definition hook_custom_tab (t : tab) : M unit := emit (EvHook t).

(** [resolveProject(...segments)] *)
Definition resolveProject (segs : list string) : path := rootDir E ++ segs.

Definition schemaPath : path := resolveProject ["prisma"; "schema.prisma"].

(** *** The commands *)

Definition cmd_version := mkCmd "prisma" ["version"] (resolveProject []).
Definition cmd_install_cli := mkCmd "npm" ["install"; "prisma"; "--save-dev"] (resolveProject []).
Definition cmd_init :=
  mkCmd "npx" ["prisma"; "init"; "--datasource-provider"; "sqlite"] (resolveProject []).
Definition cmd_format := mkCmd "npx" ["prisma"; "format"] (resolveProject []).
Definition cmd_migrate :=
  mkCmd "npx" ["prisma"; "migrate"; "dev"; "--name"; "init"] (resolveProject []).
Definition cmd_install_client := mkCmd "npm" ["install"; "@prisma/client"] (resolveProject []).
Definition cmd_generate := mkCmd "npx" ["prisma"; "generate"] (resolveProject []).
Definition cmd_studio := mkCmd "npx" ["prisma"; "studio"; "--browser"; "none"] (resolveProject []).

(** *** The steps, as in the source *)

Definition detectCli : M unit :=
  _ <- execa cmd_version ;; ret tt.

Definition installCli_step : M unit :=
  if installCli options then
    trycatch (_ <- execa cmd_install_cli ;; ret tt)
             (fun _ => error "Failed to install Prisma CLI.")
  else ret tt.

Definition initPrisma_step : M unit :=
  if initPrisma options then
    trycatch (initializePrisma <- execa cmd_init ;; console_log initializePrisma)
             (fun _ => error "Failed to initialize Prisma project.")
  else ret tt.

Definition writeToSchema_step : M unit :=
  if writeToSchema options then
    trycatch
      (let prismaSchemaPath := schemaPath in
       existingSchema <- trycatch (readFileSync prismaSchemaPath)
                                  (fun _ => error "Error reading existing schema file" ;; ret (js "")) ;;
       let updatedSchema := (trim existingSchema ++ js nl ++ js nl ++ js addModel)%list in
       writeFileSync prismaSchemaPath updatedSchema)
      (fun _ => error "Failed to write model to Prisma schema.")
  else ret tt.

Definition formatSchema_step : M unit :=
  if formatSchema options then
    trycatch (_ <- execa cmd_format ;; ret tt)
             (fun _ => error "Failed to format Prisma schema file.")
  else ret tt.

Definition runMigration_step : M unit :=
  if runMigration options then
    trycatch (_ <- execa cmd_migrate ;;
              success "Created User and Post tables in your SQLite database.")
             (fun _ => error "Failed to run Prisma migration.")
  else ret tt.

Definition generateClient_step : M unit :=
  if installClient options && generateClient options then
    trycatch (_ <- execa cmd_install_client ;;
              generateClient <- execa cmd_generate ;;
              console_log generateClient)
             (fun _ => error "Failed to generate Prisma Client.")
  else ret tt.

Definition installStudio_step : M unit :=
  if installStudio options then
    trycatch (spawn cmd_studio ;; success studioInstalledMsg)
             (fun _ => error "Failed to install Prisma Studio.")
  else ret tt.

(** [promptCli]; the boolean of the [try] block is [true] when it reached
    its [return]. *)
Definition promptCli : M unit :=
  if autoSetupPrisma options then
    installCli_step ;; success "Prisma CLI successfully installed."
  else
    returned <- trycatch (detectCli ;; success "Prisma CLI is installed." ;; ret true)
                         (fun _ => error "Prisma CLI is not installed." ;; ret false) ;;
    if returned then ret tt else
    response <- prompts "installPrisma" "Do you want to install Prisma CLI?" ;;
    if response then
      installCli_step ;; success "Prisma CLI successfully installed."
    else console_log "Prisma CLI installation skipped.".

Definition promptInitPrisma : M unit :=
  schemaExists <- existsSync schemaPath ;;
  (if schemaExists then success "Prisma schema file exists." ;; console_log schemaExistsMsg
   else console_log "Prisma schema file does not exist.") ;;
  if negb schemaExists then
    if autoSetupPrisma options then
      initPrisma_step ;; writeToSchema_step ;; formatSchema_step
    else
      response <- prompts "initPrisma" "Do you want to initialize Prisma ORM?" ;;
      if response then initPrisma_step ;; writeToSchema_step ;; formatSchema_step
      else console_log "Prisma initialization skipped."
  else ret tt.

Definition promptRunMigration : M unit :=
  if autoSetupPrisma options then runMigration_step
  else
    response <- prompts "runMigration"
      "Do you want to migrate your database by creating database tables based on your Prisma schema?" ;;
    if response then trycatch runMigration_step (fun e => error e)
    else console_log "Prisma Migrate skipped.".

Definition promptGenerateClient : M unit :=
  if autoSetupPrisma options then trycatch generateClient_step (fun e => error e)
  else
    response <- prompts "generateClient" "Do you want to generate Prisma Client?" ;;
    if response then trycatch generateClient_step (fun e => error e)
    else console_log "Prisma Client generation skipped.".

Definition promptInstallStudio : M unit :=
  if autoSetupPrisma options then
    installStudio_step ;; hook_custom_tab studioTab
  else
    response <- prompts "installStudio"
      "Do you want to view and edit your data by installing Prisma Studio in Nuxt DevTools?" ;;
    if response then
      trycatch installStudio_step (fun e => error e) ;;
      hook_custom_tab studioTab
    else console_log "Prisma Studio installation skipped.".

(** [writeClientPlugin]: the existence test goes through [resolveProject],
    the directory and the file are created relative to the working
    directory. *)
Definition accessorPath : path := resolveProject ["lib"; "prisma.ts"].

Definition writeClientPlugin : M unit :=
  existingContent <- existsSync accessorPath ;;
  trycatch
    (if negb existingContent then
       libExists <- existsSync (cwd E ++ ["lib"]) ;;
       (if negb libExists then mkdirSync (cwd E ++ ["lib"]) else ret tt) ;;
       writeFileSync (cwd E ++ ["lib"; "prisma.ts"]) (js prismaClient) ;;
       success "Global instance of Prisma Client successfully created within lib/prisma.ts file."
     else ret tt)
    (fun e => error e).

Definition setupPrismaORM : M unit :=
  console_log "Setting up Prisma ORM.." ;;
  if force_skip_prisma_setup E then error "Skipping Prisma ORM setup."
  else
    (if negb (skipInstallations options) then
       promptCli ;; promptInitPrisma ;; promptRunMigration ;;
       promptGenerateClient ;; writeClientPlugin
     else ret tt) ;;
    if studio_allowed E then promptInstallStudio else ret tt.

End Setup.

(** ** The older version of the module (src/src/module.ts, lines 1-282)

    The file also holds an earlier [defineNuxtModule] whose steps are always
    interactive (there is no [autoSetupPrisma], [skipInstallations] or
    [runMigration]).  Its [installCli], [formatSchema] and [generateClient]
    are the code of the steps above; the steps that differ are embedded
    here.  Its [promptInstallStudio] registers the DevTools tab through
    [addCustomTab] with an object that has no [category] and no
    [persistent] field, which the [tab] record cannot express; it, the
    [installStudio] only it calls and the [setupPrismaORM] calling it are
    left out. *)

Module V1.

Section SetupV1.

Variable E : env.
Variable options : ModuleOptions.

Definition cmd_init := mkCmd "npx" ["prisma"; "init"] (resolveProject E []).

Definition addModel : string :=
  nl ++
  "            model Post {" ++ nl ++
  "              id      Int      @id @default(autoincrement())" ++ nl ++
  "              title   String" ++ nl ++
  "              content String" ++ nl ++
  "              userId  Int" ++ nl ++
  "            }" ++ nl ++
  "          ".

(** The template literal logged when the schema exists (plain [.env] and
    [schema.prisma], a trailing blank after the link, a final newline). *)
Definition schemaExistsMsg : string :=
  "Please make sure to: " ++ nl ++
  " 1. Set the DATABASE_URL in the .env file to point to your existing database. If your database has no tables yet, read https://pris.ly/d/getting-started " ++ nl ++
  "        " ++ nl ++
  " 2. Set the provider of the datasource block in schema.prisma to match your database: postgresql, mysql, sqlite, sqlserver, mongodb, or cockroachdb." ++ nl ++
  "        " ++ nl ++
  " 3. Run prisma db pull to turn your database schema into a Prisma schema." ++ nl.

(** [detectCli] returns the [execa] result, or [undefined] after reporting
    the failure; [Some stdout] stands for the (always truthy) result object. *)
Definition detectCli : M (option string) :=
  trycatch (prismaCliVersion <- execa E (cmd_version E) ;;
            success "Prisma CLI is installed." ;;
            ret (Some prismaCliVersion))
           (fun _ => error "Prisma CLI is not installed. Please install Prisma CLI." ;; ret None).

Definition initPrisma_step : M unit :=
  if initPrisma options then
    trycatch (initializePrisma <- execa E cmd_init ;; console_log initializePrisma)
             (fun _ => error "Failed to initialize Prisma project.")
  else ret tt.

Definition writeToSchema_step : M unit :=
  if writeToSchema options then
    trycatch
      (let prismaSchemaPath := schemaPath E in
       existingSchema <- trycatch (readFileSync prismaSchemaPath)
                                  (fun _ => error "Error reading existing schema file" ;; ret (js "")) ;;
       let updatedSchema := (trim existingSchema ++ js nl ++ js nl ++ js addModel)%list in
       trycatch (writeFileSync prismaSchemaPath updatedSchema)
                (fun _ => error "Failed to write model to Prisma schema."))
      (fun _ => error "Failed to write model to Prisma schema.")
  else ret tt.

Definition promptCli : M unit :=
  prismaCliVersion <- detectCli ;;
  match prismaCliVersion with
  | Some _ => ret tt
  | None =>
      response <- prompts E "installPrisma" "Do you want to install Prisma CLI?" ;;
      if response then
        installCli_step E options ;; success "Prisma CLI successfully installed."
      else console_log "Prisma CLI installation skipped."
  end.

Definition promptInitPrisma : M unit :=
  schemaExists <- existsSync (schemaPath E) ;;
  (if schemaExists then success "Prisma schema file exists." ;; console_log schemaExistsMsg
   else console_log "Prisma schema file does not exist.") ;;
  if negb schemaExists then
    response <- prompts E "initPrisma" "Do you want to initialize Prisma?" ;;
    if response then initPrisma_step ;; writeToSchema_step ;; formatSchema_step E options
    else console_log "Prisma initialization skipped."
  else ret tt.

Definition promptGenerateClient : M unit :=
  response <- prompts E "generateClient" "Do you want to generate Prisma Client?" ;;
  if response then trycatch (generateClient_step E options) (fun e => error e)
  else console_log "Prisma Client generation skipped.".

End SetupV1.

End V1.

(** ** Reasoning about traces *)

(** The step number (1-8, as the spec numbers them) each call of the
    module belongs to; console output belongs to none. *)
Definition args_eqb (a b : list string) : bool :=
  if list_eq_dec string_dec a b then true else false.

Definition step_of_args (a : list string) : option nat :=
  if args_eqb a ["version"] then Some 1
  else if args_eqb a ["install"; "prisma"; "--save-dev"] then Some 1
  else if args_eqb a ["prisma"; "init"; "--datasource-provider"; "sqlite"] then Some 2
  else if args_eqb a ["prisma"; "format"] then Some 4
  else if args_eqb a ["prisma"; "migrate"; "dev"; "--name"; "init"] then Some 5
  else if args_eqb a ["install"; "@prisma/client"] then Some 6
  else if args_eqb a ["prisma"; "generate"] then Some 6
  else None.

Definition step_of_prompt (name : string) : option nat :=
  if String.eqb name "installPrisma" then Some 1
  else if String.eqb name "initPrisma" then Some 2
  else if String.eqb name "runMigration" then Some 5
  else if String.eqb name "generateClient" then Some 6
  else if String.eqb name "installStudio" then Some 8
  else None.

Definition is_schema_path (p : path) : bool := String.eqb (last p "") "schema.prisma".

Definition step_of (e : event) : option nat :=
  match e with
  | EvExec c => step_of_args (c_args c)
  | EvSpawn _ => Some 8
  | EvPrompt name _ => step_of_prompt name
  | EvExists p => if is_schema_path p then Some 2 else Some 7
  | EvRead _ => Some 3
  | EvWrite p _ => if is_schema_path p then Some 3 else Some 7
  | EvMkdir _ => Some 7
  | EvHook _ => Some 8
  | EvLog _ | EvSuccess _ | EvError _ => None
  end.

Fixpoint steps (tr : list event) : list nat :=
  match tr with
  | [] => []
  | e :: tr' => match step_of e with Some n => n :: steps tr' | None => steps tr' end
  end.

(** [l] is non-decreasing and lies in [[lo, hi]]. *)
Fixpoint sorted_from (lo : nat) (l : list nat) : Prop :=
  match l with
  | [] => True
  | x :: l' => lo <= x /\ sorted_from x l'
  end.

Definition between (lo hi : nat) (l : list nat) : Prop :=
  sorted_from lo l /\ Forall (fun x => x <= hi) l.

(** Every event a computation emits satisfies [P], from every world. *)
Definition TraceAll {A} (P : event -> Prop) (m : M A) : Prop :=
  forall w, Forall P (trace_of (m w)).

(** The step numbers of the events a computation emits are
    non-decreasing and lie in [[lo, hi]], from every world. *)
Definition Phase {A} (lo hi : nat) (m : M A) : Prop :=
  forall w, between lo hi (steps (trace_of (m w))).

(** The computation never lets an exception escape. *)
Definition NoThrow (m : M unit) : Prop := forall w, res_of (m w) = Ok tt.

(** Run each computation on the world the previous one left, whatever
    it returned, and collect the events. *)
Fixpoint run_all (ms : list (M unit)) (w : world) : world * list event :=
  match ms with
  | [] => (w, [])
  | m :: ms' =>
      let '(_, w1, t1) := m w in
      let '(w2, t2) := run_all ms' w1 in (w2, t1 ++ t2)
  end.

(** The steps [setupPrismaORM] calls, by its gates. *)
Definition pipeline_steps (E : env) (o : ModuleOptions) : list (M unit) :=
  console_log "Setting up Prisma ORM.." ::
  if force_skip_prisma_setup E then [error "Skipping Prisma ORM setup."]
  else
    (if negb (skipInstallations o) then
       [promptCli E o; promptInitPrisma E o; promptRunMigration E o;
        promptGenerateClient E o; writeClientPlugin E]
     else []) ++
    (if studio_allowed E then [promptInstallStudio E o] else []).

(** The event is none of the calls of steps 2-4 on the schema: no
    [prisma init], no [prisma format], no read or write of the schema file. *)
Definition no_init_chain (E : env) (e : event) : Prop :=
  match e with
  | EvExec c =>
      c_args c <> ["prisma"; "init"; "--datasource-provider"; "sqlite"] /\
      c_args c <> ["prisma"; "format"]
  | EvRead p => p <> schemaPath E
  | EvWrite p _ => p <> schemaPath E
  | _ => True
  end.

(** ** Concrete configurations, to run the pipeline on *)

Definition demo_root : path := ["home"; "app"].

(** A project whose host answers yes to every prompt and whose commands all
    succeed without touching the file system, except [prisma version] which
    fails when the CLI is not installed. *)
Definition demo_env (lifecycle : option string) (cli_installed : bool) : env := {|
  rootDir := demo_root;
  cwd := demo_root;
  npm_lifecycle_event := lifecycle;
  SKIP_PRISMA_SETUP := None;
  exec_oracle := fun c w =>
    if args_eqb (c_args c) ["version"]
    then (w, if cli_installed then Some "prisma 5.0.0" else None)
    else (w, Some "");
  spawn_oracle := fun _ => SpawnExits true;
  prompt_answer := fun _ => true |}.

Definition demo_options (auto skip : bool) : ModuleOptions :=
  {| datasourceUrl := None; log := []; errorFormat := "colorless";
     installCli := true; initPrisma := true; writeToSchema := true;
     formatSchema := true; runMigration := true; installClient := true;
     generateClient := true; installStudio := true;
     skipInstallations := skip; autoSetupPrisma := auto |}.

(** A project directory without a [prisma] directory. *)
Definition demo_world_bare : world :=
  mkWorld [] [[]; ["home"]; demo_root].

(** A project with an existing schema file. *)
Definition demo_world_schema : world :=
  mkWorld [(demo_root ++ ["prisma"; "schema.prisma"], "datasource db {}")]
          [[]; ["home"]; demo_root; demo_root ++ ["prisma"]].

(** A schema file ending in a no-break space (U+00A0, bytes C2 A0), a line
    feed and an ideographic space (U+3000, bytes E3 80 80). *)
Definition demo_schema_ws : string :=
  "datasource db {}" ++ String (ascii_of_nat 194) (String (ascii_of_nat 160) nl) ++
  String (ascii_of_nat 227) (String (ascii_of_nat 128) (String (ascii_of_nat 128) EmptyString)).

(** A schema file holding the byte FF, which is no UTF-8, then a space. *)
Definition demo_schema_bad : string :=
  "datasource db {}" ++ String (ascii_of_nat 255) " ".

(** The project with the schema file [s]. *)
Definition demo_world_schema_with (s : string) : world :=
  mkWorld [(demo_root ++ ["prisma"; "schema.prisma"], s)]
          [[]; ["home"]; demo_root; demo_root ++ ["prisma"]].

(** The same host, with the process started in directory [dir]. *)
Definition demo_env_at (dir : path) : env :=
  let E := demo_env (Some "dev") true in
  mkEnv (rootDir E) dir (npm_lifecycle_event E) (SKIP_PRISMA_SETUP E)
        (exec_oracle E) (spawn_oracle E) (prompt_answer E).

(** The same host, where the [prisma studio] child exits with an error. *)
Definition demo_env_studio_fails : env :=
  let E := demo_env (Some "dev") true in
  mkEnv (rootDir E) (cwd E) (npm_lifecycle_event E) (SKIP_PRISMA_SETUP E)
        (exec_oracle E) (fun _ => SpawnExits false) (prompt_answer E).

(** The same host, with [SKIP_PRISMA_SETUP] set to [v]. *)
Definition demo_env_skip (v : option string) : env :=
  let E := demo_env (Some "dev") true in
  mkEnv (rootDir E) (cwd E) (npm_lifecycle_event E) v
        (exec_oracle E) (spawn_oracle E) (prompt_answer E).

(** A project with [lib/] in the parent of its root, holding a
    [prisma.ts] of its own. *)
Definition demo_world_parent_lib : world :=
  mkWorld [(["home"; "lib"; "prisma.ts"], "export const db = 1")]
          [[]; ["home"]; demo_root; ["home"; "lib"]].

(** ** What the module's own file operations may change *)

(** [w'] has every directory of [w], and every file of [w] other than the
    schema file and the working directory's [lib/prisma.ts] with the same
    contents. *)
Definition keeps (E : env) (w w' : world) : Prop :=
  (forall p, is_dir w p = true -> is_dir w' p = true) /\
  (forall p, p <> schemaPath E -> p <> cwd E ++ ["lib"; "prisma.ts"] ->
     lookup (files w') p = lookup (files w) p).

Definition Keeps {A} (E : env) (m : M A) : Prop := forall w, keeps E w (world_of (m w)).

Lemma steps_app : forall t1 t2, steps (t1 ++ t2) = steps t1 ++ steps t2.
Proof.
  induction t1 as [|e t1 IH]; intros t2; simpl; [reflexivity|].
  destruct (step_of e); rewrite IH; reflexivity.
Qed.

Lemma sorted_from_weaken : forall l a a', a' <= a -> sorted_from a l -> sorted_from a' l.
Proof.
  intros [|x l] a a' Ha H; simpl in *; [trivial|].
  destruct H; split; [lia|assumption].
Qed.

Lemma between_app : forall a b c l1 l2,
  a <= b -> b <= c -> between a b l1 -> between b c l2 -> between a c (l1 ++ l2).
Proof.
  intros a b c l1 l2 Hab Hbc. revert a Hab.
  induction l1 as [|x l1 IH]; intros a Hab [H1 F1] [H2 F2]; simpl.
  - split; [eapply sorted_from_weaken; eauto|assumption].
  - destruct H1 as [Hx H1]. inversion F1 as [|y l Hxb Fl]; subst.
    destruct (IH x Hxb (conj H1 Fl) (conj H2 F2)) as [S F].
    split; [split; assumption|constructor; [lia|assumption]].
Qed.

Lemma between_weaken : forall a b a' b' l,
  a' <= a -> b <= b' -> between a b l -> between a' b' l.
Proof.
  intros a b a' b' l Ha Hb [S F]. split.
  - eapply sorted_from_weaken; eauto.
  - eapply Forall_impl; [|exact F]. intros; simpl in *; lia.
Qed.

Lemma between_const : forall k l, Forall (fun n => n = k) l -> between k k l.
Proof.
  intros k l F. induction F as [|x l Hx F [S G]]; subst.
  - split; [exact I|constructor].
  - split; [split; [lia|exact S]|constructor; [lia|exact G]].
Qed.

(** *** Trace invariants of the monad's combinators *)

Section TraceAllLemmas.

Variable P : event -> Prop.

Lemma TA_ret : forall A (a : A), TraceAll P (ret a).
Proof. intros A a w. constructor. Qed.

Lemma TA_throw : forall A e, TraceAll P (@throw A e).
Proof. intros A e w. constructor. Qed.

Lemma TA_emit : forall e, P e -> TraceAll P (emit e).
Proof. intros e He w. repeat constructor; assumption. Qed.

Lemma TA_bind : forall A B (m : M A) (k : A -> M B),
  TraceAll P m -> (forall a, TraceAll P (k a)) -> TraceAll P (bind m k).
Proof.
  intros A B m k Hm Hk w. unfold bind. specialize (Hm w).
  destruct (m w) as [[[a|e] w1] t1]; simpl in *; [|exact Hm].
  specialize (Hk a w1). destruct (k a w1) as [[r w2] t2]; simpl in *.
  apply Forall_app; split; assumption.
Qed.

Lemma TA_trycatch : forall A (m : M A) (h : string -> M A),
  TraceAll P m -> (forall e, TraceAll P (h e)) -> TraceAll P (trycatch m h).
Proof.
  intros A m h Hm Hh w. unfold trycatch. specialize (Hm w).
  destruct (m w) as [[[a|e] w1] t1]; simpl in *; [exact Hm|].
  specialize (Hh e w1). destruct (h e w1) as [[r w2] t2]; simpl in *.
  apply Forall_app; split; assumption.
Qed.

Variable E : env.

Lemma TA_execa : forall c, P (EvExec c) -> TraceAll P (execa E c).
Proof.
  intros c H w. unfold execa. destruct (exec_oracle E c w) as [w' [out|]];
  repeat constructor; assumption.
Qed.

Lemma TA_spawn : forall c, P (EvSpawn c) -> TraceAll P (spawn E c).
Proof. intros c H w. unfold spawn. destruct (spawn_oracle E c); repeat constructor; assumption. Qed.

Lemma TA_prompts : forall n msg, P (EvPrompt n msg) -> TraceAll P (prompts E n msg).
Proof. intros n msg H w. repeat constructor; assumption. Qed.

Lemma TA_existsSync : forall p, P (EvExists p) -> TraceAll P (existsSync p).
Proof. intros p H w. repeat constructor; assumption. Qed.

Lemma TA_readFileSync : forall p, P (EvRead p) -> TraceAll P (readFileSync p).
Proof. intros p H w. unfold readFileSync. destruct (lookup (files w) p); repeat constructor; assumption. Qed.

Lemma TA_writeFileSync : forall p c, P (EvWrite p (utf8_encode c)) -> TraceAll P (writeFileSync p c).
Proof. intros p c H w. unfold writeFileSync. destruct (can_write w p); repeat constructor; assumption. Qed.

Lemma TA_mkdirSync : forall p, P (EvMkdir p) -> TraceAll P (mkdirSync p).
Proof. intros p H w. unfold mkdirSync. destruct (can_mkdir w p); repeat constructor; assumption. Qed.

End TraceAllLemmas.

(** Decompose a [TraceAll] goal along the program's structure, leaving one
    goal per call the program makes. *)
Ltac trace_all :=
  repeat match goal with
  | |- TraceAll _ (bind _ _) => apply TA_bind; [|intro]
  | |- TraceAll _ (trycatch _ _) => apply TA_trycatch; [|intro]
  | |- TraceAll _ (if ?b then _ else _) => destruct b
  | |- TraceAll _ (ret _) => apply TA_ret
  | |- TraceAll _ (throw _) => apply TA_throw
  | |- TraceAll _ (emit _) => apply TA_emit
  | |- TraceAll _ (console_log _) => apply TA_emit
  | |- TraceAll _ (success _) => apply TA_emit
  | |- TraceAll _ (error _) => apply TA_emit
  | |- TraceAll _ (hook_custom_tab _) => apply TA_emit
  | |- TraceAll _ (execa _ _) => apply TA_execa
  | |- TraceAll _ (spawn _ _) => apply TA_spawn
  | |- TraceAll _ (prompts _ _ _) => apply TA_prompts
  | |- TraceAll _ (existsSync _) => apply TA_existsSync
  | |- TraceAll _ (readFileSync _) => apply TA_readFileSync
  | |- TraceAll _ (writeFileSync _ _) => apply TA_writeFileSync
  | |- TraceAll _ (mkdirSync _) => apply TA_mkdirSync
  end.

Lemma TA_impl : forall A (P Q : event -> Prop) (m : M A),
  (forall e, P e -> Q e) -> TraceAll P m -> TraceAll Q m.
Proof. intros A P Q m H Hm w. eapply Forall_impl; [exact H|exact (Hm w)]. Qed.

(** *** Phases *)

Lemma Phase_of_TA : forall A k (m : M A),
  TraceAll (fun e => step_of e = None \/ step_of e = Some k) m -> Phase k k m.
Proof.
  intros A k m H w. apply between_const. specialize (H w).
  induction (trace_of (m w)) as [|e t IH]; simpl; [constructor|].
  inversion H as [|e' t' He Ht]; subst.
  destruct He as [He|He]; rewrite He; [auto|constructor; auto].
Qed.

Lemma Phase_bind : forall A B a b c (m : M A) (k : A -> M B),
  a <= b -> b <= c -> Phase a b m -> (forall x, Phase b c (k x)) ->
  Phase a c (bind m k).
Proof.
  intros A B a b c m k Hab Hbc Hm Hk w. unfold bind. specialize (Hm w).
  destruct (m w) as [[[x|e] w1] t1]; simpl in *.
  - specialize (Hk x w1). destruct (k x w1) as [[r w2] t2]; simpl in *.
    rewrite steps_app. eapply between_app; eauto.
  - eapply between_weaken; [| |exact Hm]; lia.
Qed.

Lemma Phase_weaken : forall A a b a' b' (m : M A),
  a' <= a -> b <= b' -> Phase a b m -> Phase a' b' m.
Proof. intros A a b a' b' m Ha Hb H w. eapply between_weaken; eauto. Qed.

Lemma Phase_ret : forall A a b (x : A), Phase a b (ret x).
Proof. intros A a b x w. split; [exact I|constructor]. Qed.

(** *** The steps' labels *)

Lemma last_app_ne : forall (l l' : list string) d, l' <> [] -> last (l ++ l') d = last l' d.
Proof.
  induction l as [|x l IH]; intros l' d Hl; [reflexivity|].
  rewrite <- app_comm_cons. simpl. rewrite IH by assumption.
  destruct (l ++ l') eqn:Heq; [|reflexivity].
  apply app_eq_nil in Heq. destruct Heq; contradiction.
Qed.

(** Settle the side goal about one call left by [trace_all]. *)
Ltac label_tac :=
  unfold step_of, is_schema_path, schemaPath, accessorPath, resolveProject;
  try rewrite last_app_ne by discriminate;
  cbn; auto.

Section Labels.

Variable E : env.
Variable o : ModuleOptions.

Lemma promptCli_phase : Phase 1 1 (promptCli E o).
Proof.
  apply Phase_of_TA. unfold promptCli, installCli_step, detectCli.
  trace_all; label_tac.
Qed.

Lemma initPrisma_phase : Phase 2 2 (initPrisma_step E o).
Proof. apply Phase_of_TA. unfold initPrisma_step. trace_all; label_tac. Qed.

Lemma writeToSchema_phase : Phase 3 3 (writeToSchema_step E o).
Proof. apply Phase_of_TA. unfold writeToSchema_step. trace_all; label_tac. Qed.

Lemma formatSchema_phase : Phase 4 4 (formatSchema_step E o).
Proof. apply Phase_of_TA. unfold formatSchema_step. trace_all; label_tac. Qed.

Lemma init_write_format_phase :
  Phase 2 4 (initPrisma_step E o ;; writeToSchema_step E o ;; formatSchema_step E o).
Proof.
  apply Phase_bind with (b := 2); [lia|lia|apply initPrisma_phase|intros _].
  apply Phase_bind with (b := 3); [lia|lia| |intros _].
  - eapply Phase_weaken; [| |apply writeToSchema_phase]; lia.
  - eapply Phase_weaken; [| |apply formatSchema_phase]; lia.
Qed.

Lemma promptInitPrisma_phase : Phase 2 4 (promptInitPrisma E o).
Proof.
  unfold promptInitPrisma.
  apply Phase_bind with (b := 2); [lia|lia| |intros schemaExists].
  { apply Phase_of_TA. trace_all; label_tac. }
  apply Phase_bind with (b := 2); [lia|lia| |intros _].
  { apply Phase_of_TA. trace_all; label_tac. }
  destruct (negb schemaExists); [|apply Phase_ret].
  destruct (autoSetupPrisma o); [apply init_write_format_phase|].
  apply Phase_bind with (b := 2); [lia|lia| |intros response].
  { apply Phase_of_TA. trace_all; label_tac. }
  destruct response; [apply init_write_format_phase|].
  apply Phase_weaken with (a := 2) (b := 2); [lia|lia|].
  apply Phase_of_TA. trace_all; label_tac.
Qed.

Lemma promptRunMigration_phase : Phase 5 5 (promptRunMigration E o).
Proof. apply Phase_of_TA. unfold promptRunMigration, runMigration_step. trace_all; label_tac. Qed.

Lemma promptGenerateClient_phase : Phase 6 6 (promptGenerateClient E o).
Proof. apply Phase_of_TA. unfold promptGenerateClient, generateClient_step. trace_all; label_tac. Qed.

Lemma writeClientPlugin_phase : Phase 7 7 (writeClientPlugin E).
Proof. apply Phase_of_TA. unfold writeClientPlugin. trace_all; label_tac. Qed.

Lemma promptInstallStudio_phase : Phase 8 8 (promptInstallStudio E o).
Proof. apply Phase_of_TA. unfold promptInstallStudio, installStudio_step. trace_all; label_tac. Qed.

End Labels.

(** *** No exception escapes *)

Definition NoExc {A} (m : M A) : Prop :=
  forall w, exists a, res_of (m w) = Ok a.

Lemma NE_ret : forall A (a : A), NoExc (ret a).
Proof. intros A a w. exists a. reflexivity. Qed.

Lemma NE_emit : forall e, NoExc (emit e).
Proof. intros e w. exists tt. reflexivity. Qed.

Lemma NE_bind : forall A B (m : M A) (k : A -> M B),
  NoExc m -> (forall a, NoExc (k a)) -> NoExc (bind m k).
Proof.
  intros A B m k Hm Hk w. unfold bind. destruct (Hm w) as [a Ha].
  destruct (m w) as [[r w1] t1]; simpl in Ha; subst r.
  destruct (Hk a w1) as [b Hb].
  destruct (k a w1) as [[r w2] t2]; simpl in *; subst r. exists b; reflexivity.
Qed.

Lemma NE_trycatch : forall A (m : M A) (h : string -> M A),
  (forall e, NoExc (h e)) -> NoExc (trycatch m h).
Proof.
  intros A m h Hh w. unfold trycatch.
  destruct (m w) as [[[a|e] w1] t1]; [exists a; reflexivity|].
  destruct (Hh e w1) as [b Hb].
  destruct (h e w1) as [[r w2] t2]; simpl in *; subst r. exists b; reflexivity.
Qed.

Lemma NE_prompts : forall E n msg, NoExc (prompts E n msg).
Proof. intros E n msg w. eexists; reflexivity. Qed.

Lemma NE_existsSync : forall p, NoExc (existsSync p).
Proof. intros p w. eexists; reflexivity. Qed.

Lemma NoThrow_of_NoExc : forall m : M unit, NoExc m -> NoThrow m.
Proof. intros m H w. destruct (H w) as [[] Ha]. exact Ha. Qed.

Lemma NoExc_of_NoThrow : forall m : M unit, NoThrow m -> NoExc m.
Proof. intros m H w. exists tt. apply H. Qed.

Ltac no_exc :=
  repeat match goal with
  | |- NoThrow _ => apply NoThrow_of_NoExc
  | H : NoThrow ?m |- NoExc ?m => exact (NoExc_of_NoThrow m H)
  | |- NoExc (bind _ _) => apply NE_bind; [|intro]
  | |- NoExc (trycatch _ _) => apply NE_trycatch; intro
  | |- NoExc (if ?b then _ else _) => destruct b
  | |- NoExc (ret _) => apply NE_ret
  | |- NoExc (emit _) => apply NE_emit
  | |- NoExc (console_log _) => apply NE_emit
  | |- NoExc (success _) => apply NE_emit
  | |- NoExc (error _) => apply NE_emit
  | |- NoExc (hook_custom_tab _) => apply NE_emit
  | |- NoExc (prompts _ _ _) => apply NE_prompts
  | |- NoExc (existsSync _) => apply NE_existsSync
  end.

Section NoThrowSteps.

Variable E : env.
Variable o : ModuleOptions.

Lemma installCli_nt : NoThrow (installCli_step E o).
Proof. unfold installCli_step. no_exc. Qed.

Lemma initPrisma_nt : NoThrow (initPrisma_step E o).
Proof. unfold initPrisma_step. no_exc. Qed.

Lemma writeToSchema_nt : NoThrow (writeToSchema_step E o).
Proof. unfold writeToSchema_step. no_exc. Qed.

Lemma formatSchema_nt : NoThrow (formatSchema_step E o).
Proof. unfold formatSchema_step. no_exc. Qed.

Lemma runMigration_nt : NoThrow (runMigration_step E o).
Proof. unfold runMigration_step. no_exc. Qed.

Lemma generateClient_nt : NoThrow (generateClient_step E o).
Proof. unfold generateClient_step. no_exc. Qed.

Lemma installStudio_nt : NoThrow (installStudio_step E o).
Proof. unfold installStudio_step. no_exc. Qed.

Lemma promptCli_nt : NoThrow (promptCli E o).
Proof.
  unfold promptCli. pose proof installCli_nt. no_exc.
Qed.

Lemma promptInitPrisma_nt : NoThrow (promptInitPrisma E o).
Proof.
  unfold promptInitPrisma.
  pose proof initPrisma_nt; pose proof writeToSchema_nt; pose proof formatSchema_nt.
  no_exc.
Qed.

Lemma promptRunMigration_nt : NoThrow (promptRunMigration E o).
Proof.
  unfold promptRunMigration. pose proof runMigration_nt. no_exc.
Qed.

Lemma promptGenerateClient_nt : NoThrow (promptGenerateClient E o).
Proof. unfold promptGenerateClient. pose proof generateClient_nt. no_exc. Qed.

Lemma writeClientPlugin_nt : NoThrow (writeClientPlugin E).
Proof. unfold writeClientPlugin. no_exc. Qed.

Lemma promptInstallStudio_nt : NoThrow (promptInstallStudio E o).
Proof.
  unfold promptInstallStudio. pose proof installStudio_nt. no_exc.
Qed.

End NoThrowSteps.

Lemma NT_seq : forall (m k : M unit), NoThrow m -> NoThrow k -> NoThrow (m ;; k).
Proof. intros m k Hm Hk. no_exc. Qed.

Create HintDb nothrow.

#[export] Hint Resolve installCli_nt initPrisma_nt writeToSchema_nt formatSchema_nt
  runMigration_nt generateClient_nt installStudio_nt promptCli_nt promptInitPrisma_nt
  promptRunMigration_nt promptGenerateClient_nt writeClientPlugin_nt promptInstallStudio_nt
  NT_seq : nothrow.

Lemma NT_emit : forall e, NoThrow (emit e).
Proof. intros e w. reflexivity. Qed.

#[export] Hint Resolve NT_emit : nothrow.
#[export] Hint Unfold console_log success error : nothrow.

Lemma bind_nt : forall B (m : M unit) (k : unit -> M B) w, NoThrow m ->
  bind m k w =
  (res_of (k tt (world_of (m w))), world_of (k tt (world_of (m w))),
   trace_of (m w) ++ trace_of (k tt (world_of (m w)))).
Proof.
  intros B m k w H. unfold bind. specialize (H w).
  destruct (m w) as [[r w1] t1]; simpl in H; subst r; simpl.
  destruct (k tt w1) as [[r2 w2] t2]. reflexivity.
Qed.

Lemma run_all_cons : forall m ms w,
  run_all (m :: ms) w =
  (fst (run_all ms (world_of (m w))), trace_of (m w) ++ snd (run_all ms (world_of (m w)))).
Proof.
  intros m ms w. simpl. destruct (m w) as [[r w1] t1]. simpl.
  destruct (run_all ms w1). reflexivity.
Qed.

Lemma NT_ret : NoThrow (ret tt).
Proof. intro; reflexivity. Qed.

#[export] Hint Resolve NT_ret : nothrow.

Lemma setupPrismaORM_run_all : forall E o w,
  setupPrismaORM E o w =
  (Ok tt, fst (run_all (pipeline_steps E o) w), snd (run_all (pipeline_steps E o) w)).
Proof.
  intros E o w. unfold setupPrismaORM, pipeline_steps.
  rewrite bind_nt by (apply NT_emit). rewrite run_all_cons. cbn beta.
  change (world_of (console_log "Setting up Prisma ORM.." w)) with w.
  change (trace_of (console_log "Setting up Prisma ORM.." w)) with [EvLog "Setting up Prisma ORM.."].
  destruct (force_skip_prisma_setup E); [reflexivity|].
  destruct (skipInstallations o), (studio_allowed E); cbn [negb app].
  all: repeat (rewrite bind_nt by (auto with nothrow)); repeat rewrite run_all_cons; cbn beta.
  all: cbn [res_of world_of trace_of fst snd run_all ret].
  all: rewrite ?promptInstallStudio_nt, ?writeClientPlugin_nt.
  all: rewrite ?app_nil_r, <- ?app_assoc; reflexivity.
Qed.

(** ** The claims *)

(** Claim C4 (a code bug for the GUI viewer): a failure of an awaited
    [execa] command, and a [spawn] that throws, is caught inside the step
    that ran it and reported with [error]; no step lets an exception out,
    so [setupPrismaORM] returns normally and every later step still runs:
    the pipeline is exactly "run each step its gates select, on the world the
    previous one left, whatever happened in it", for every outcome of every
    command (the oracles of [E] are arbitrary).  The [prisma studio] child
    is not covered: once [spawn] has returned, the step reports success
    whatever the child's exit status, and nothing is logged when it
    fails. *)
Theorem setupPrismaORM_log_and_continue : forall E o,
  (NoThrow (promptCli E o) /\ NoThrow (promptInitPrisma E o) /\
   NoThrow (promptRunMigration E o) /\ NoThrow (promptGenerateClient E o) /\
   NoThrow (writeClientPlugin E) /\ NoThrow (promptInstallStudio E o)) /\
  (forall w, setupPrismaORM E o w =
     (Ok tt, fst (run_all (pipeline_steps E o) w), snd (run_all (pipeline_steps E o) w))) /\
  (forall w w', exec_oracle E (cmd_install_cli E) w = (w', None) -> installCli o = true ->
     installCli_step E o w =
     (Ok tt, w', [EvExec (cmd_install_cli E); EvError "Failed to install Prisma CLI."])) /\
  (forall w w', exec_oracle E (cmd_init E) w = (w', None) -> initPrisma o = true ->
     initPrisma_step E o w =
     (Ok tt, w', [EvExec (cmd_init E); EvError "Failed to initialize Prisma project."])) /\
  (forall w w', exec_oracle E (cmd_format E) w = (w', None) -> formatSchema o = true ->
     formatSchema_step E o w =
     (Ok tt, w', [EvExec (cmd_format E); EvError "Failed to format Prisma schema file."])) /\
  (forall w w', exec_oracle E (cmd_migrate E) w = (w', None) -> runMigration o = true ->
     runMigration_step E o w =
     (Ok tt, w', [EvExec (cmd_migrate E); EvError "Failed to run Prisma migration."])) /\
  (forall w w', exec_oracle E (cmd_install_client E) w = (w', None) ->
     installClient o = true -> generateClient o = true ->
     generateClient_step E o w =
     (Ok tt, w', [EvExec (cmd_install_client E); EvError "Failed to generate Prisma Client."])) /\
  (forall w w' w'' out, exec_oracle E (cmd_install_client E) w = (w', Some out) ->
     exec_oracle E (cmd_generate E) w' = (w'', None) ->
     installClient o = true -> generateClient o = true ->
     generateClient_step E o w =
     (Ok tt, w'', [EvExec (cmd_install_client E); EvExec (cmd_generate E);
                   EvError "Failed to generate Prisma Client."])) /\
  (forall w, spawn_oracle E (cmd_studio E) = SpawnThrows -> installStudio o = true ->
     installStudio_step E o w =
     (Ok tt, w, [EvSpawn (cmd_studio E); EvError "Failed to install Prisma Studio."])) /\
  (forall w ok, spawn_oracle E (cmd_studio E) = SpawnExits ok -> installStudio o = true ->
     installStudio_step E o w =
     (Ok tt, w, [EvSpawn (cmd_studio E); EvSuccess studioInstalledMsg])) /\
  (forall w w', exec_oracle E (cmd_version E) w = (w', None) -> autoSetupPrisma o = false ->
     exists t, trace_of (promptCli E o w) =
       [EvExec (cmd_version E); EvError "Prisma CLI is not installed.";
        EvPrompt "installPrisma" "Do you want to install Prisma CLI?"] ++ t).
Proof.
  intros E o.
  split; [repeat split; auto with nothrow|].
  split; [apply setupPrismaORM_run_all|].
  repeat split.
  - intros w w' H F. unfold installCli_step. rewrite F.
    unfold trycatch, bind, execa. rewrite H. reflexivity.
  - intros w w' H F. unfold initPrisma_step. rewrite F.
    unfold trycatch, bind, execa. rewrite H. reflexivity.
  - intros w w' H F. unfold formatSchema_step. rewrite F.
    unfold trycatch, bind, execa. rewrite H. reflexivity.
  - intros w w' H F. unfold runMigration_step. rewrite F.
    unfold trycatch, bind, execa. rewrite H. reflexivity.
  - intros w w' H F1 F2. unfold generateClient_step. rewrite F1, F2. cbn [andb].
    unfold trycatch, bind, execa. rewrite H. reflexivity.
  - intros w w' w'' out H1 H2 F1 F2. unfold generateClient_step. rewrite F1, F2. cbn [andb].
    unfold trycatch, bind, execa. rewrite H1. simpl. rewrite H2. reflexivity.
  - intros w H F. unfold installStudio_step. rewrite F.
    unfold trycatch, bind, spawn. rewrite H. reflexivity.
  - intros w ok H F. unfold installStudio_step. rewrite F.
    unfold trycatch, bind, spawn. rewrite H. reflexivity.
  - intros w w' H F. unfold promptCli. rewrite F.
    unfold trycatch, bind, detectCli, bind, execa. rewrite H. cbn.
    destruct (prompt_answer E "installPrisma"); [|eexists; reflexivity].
    destruct (installCli_step E o w') as [[r w1] t1].
    destruct r; eexists; reflexivity.
Qed.

(** Claim C4 fails for the GUI viewer: when the [prisma studio] child exits
    with an error, the step prints its success message, the whole run logs
    no error, and the DevTools tab is registered. *)
Lemma setupPrismaORM_log_and_continue_counterexample :
  spawn_oracle demo_env_studio_fails (cmd_studio demo_env_studio_fails) = SpawnExits false /\
  trace_of (promptInstallStudio demo_env_studio_fails (demo_options true false)
              demo_world_schema) =
    [EvSpawn (cmd_studio demo_env_studio_fails); EvSuccess studioInstalledMsg;
     EvHook studioTab] /\
  Forall (fun e => match e with EvError _ => False | _ => True end)
    (trace_of (setupPrismaORM demo_env_studio_fails (demo_options true false)
                 demo_world_schema)).
Proof.
  split; [reflexivity|]. split; [vm_compute; reflexivity|].
  vm_compute. repeat constructor.
Qed.

(** Claim C5: the calls the pipeline makes come in the order of the spec's
    steps: their step numbers ([step_of]) never decrease and lie in 1..8. *)
Theorem setupPrismaORM_step_order : forall E o w,
  between 1 8 (steps (trace_of (setupPrismaORM E o w))).
Proof.
  intros E o. change (Phase 1 8 (setupPrismaORM E o)). unfold setupPrismaORM.
  apply Phase_bind with (b := 1); [lia|lia| |intros _].
  { apply Phase_of_TA. trace_all; label_tac. }
  destruct (force_skip_prisma_setup E).
  { apply Phase_weaken with (a := 1) (b := 1); [lia|lia|].
    apply Phase_of_TA. trace_all; label_tac. }
  apply Phase_bind with (b := 7); [lia|lia| |intros _].
  - destruct (negb (skipInstallations o)); [|apply Phase_ret].
    apply Phase_bind with (b := 1); [lia|lia|apply promptCli_phase|intros _].
    apply Phase_bind with (b := 4); [lia|lia| |intros _].
    { apply Phase_weaken with (a := 2) (b := 4); [lia|lia|apply promptInitPrisma_phase]. }
    apply Phase_bind with (b := 5); [lia|lia| |intros _].
    { apply Phase_weaken with (a := 5) (b := 5); [lia|lia|apply promptRunMigration_phase]. }
    apply Phase_bind with (b := 6); [lia|lia| |intros _].
    { apply Phase_weaken with (a := 6) (b := 6); [lia|lia|apply promptGenerateClient_phase]. }
    apply Phase_weaken with (a := 7) (b := 7); [lia|lia|apply writeClientPlugin_phase].
  - destruct (studio_allowed E); [|apply Phase_ret].
    apply Phase_weaken with (a := 8) (b := 8); [lia|lia|apply promptInstallStudio_phase].
Qed.

(** *** File-system lemmas *)

Lemma path_eqb_spec : forall p q, path_eqb p q = true <-> p = q.
Proof.
  intros p q. unfold path_eqb. destruct (list_eq_dec string_dec p q); split; congruence.
Qed.

Lemma lookup_update_same : forall fs p c, lookup (update fs p c) p = Some c.
Proof.
  induction fs as [|[q c'] fs IH]; intros p c; simpl.
  - rewrite (proj2 (path_eqb_spec p p) eq_refl). reflexivity.
  - destruct (path_eqb p q) eqn:Hpq; simpl; rewrite ?Hpq; [reflexivity|apply IH].
Qed.

Lemma lookup_update_other : forall fs p q c, q <> p -> lookup (update fs p c) q = lookup fs q.
Proof.
  induction fs as [|[r c'] fs IH]; intros p q c Hqp; simpl.
  - destruct (path_eqb q p) eqn:H; [apply path_eqb_spec in H; contradiction|reflexivity].
  - destruct (path_eqb p r) eqn:Hpr; simpl.
    + apply path_eqb_spec in Hpr. subst r.
      destruct (path_eqb q p) eqn:H; [apply path_eqb_spec in H; contradiction|reflexivity].
    + destruct (path_eqb q r); [reflexivity|apply IH; assumption].
Qed.

(** Claim C3 (a code bug when the working directory is not the project
    root): when the project's [lib/prisma.ts] (under [rootDir]) exists, the
    write-client-accessor step writes nothing at all: it only tests the path,
    and the world (so that file's contents) is unchanged.  The step writes
    to [lib/prisma.ts] under the working directory, so when the working
    directory is the project root an existing accessor at the written path
    is kept. *)
Theorem writeClientPlugin_keeps_accessor : forall E w c,
  (lookup (files w) (accessorPath E) = Some c ->
   writeClientPlugin E w = (Ok tt, w, [EvExists (accessorPath E)]) /\
   lookup (files (world_of (writeClientPlugin E w))) (accessorPath E) = Some c) /\
  (cwd E = rootDir E ->
   lookup (files w) (cwd E ++ ["lib"; "prisma.ts"]) = Some c ->
   lookup (files (world_of (writeClientPlugin E w))) (cwd E ++ ["lib"; "prisma.ts"]) = Some c).
Proof.
  intros E w c.
  assert (K : lookup (files w) (accessorPath E) = Some c ->
              writeClientPlugin E w = (Ok tt, w, [EvExists (accessorPath E)])).
  { intros H. unfold writeClientPlugin, bind, trycatch, existsSync, path_exists, is_file.
    rewrite H. reflexivity. }
  split.
  - intros H. split; [exact (K H)|]. rewrite (K H). exact H.
  - intros Hc H. unfold accessorPath, resolveProject in K. rewrite <- Hc in K.
    rewrite (K H). exact H.
Qed.

(** Claim C3 fails when the process runs outside the project root: with the
    root [/home/app] and the working directory [/home], the step tests
    [/home/app/lib/prisma.ts], finds nothing, and replaces the accessor
    already in [/home/lib/prisma.ts], the file it writes. *)
Lemma writeClientPlugin_keeps_accessor_counterexample :
  cwd (demo_env_at ["home"]) ++ ["lib"; "prisma.ts"] = ["home"; "lib"; "prisma.ts"] /\
  lookup (files demo_world_parent_lib) ["home"; "lib"; "prisma.ts"] =
    Some "export const db = 1" /\
  lookup (files (world_of (writeClientPlugin (demo_env_at ["home"]) demo_world_parent_lib)))
         ["home"; "lib"; "prisma.ts"] = Some prismaClient.
Proof. split; [reflexivity|]. split; vm_compute; reflexivity. Qed.

(** Claim C6: a step whose governing flag is false does nothing: it returns
    at once, with the world unchanged and no call made. *)
Theorem flag_false_step_noop : forall E o w,
  (installCli o = false -> installCli_step E o w = (Ok tt, w, [])) /\
  (initPrisma o = false -> initPrisma_step E o w = (Ok tt, w, [])) /\
  (writeToSchema o = false -> writeToSchema_step E o w = (Ok tt, w, [])) /\
  (formatSchema o = false -> formatSchema_step E o w = (Ok tt, w, [])) /\
  (runMigration o = false -> runMigration_step E o w = (Ok tt, w, [])) /\
  (installClient o = false -> generateClient_step E o w = (Ok tt, w, [])) /\
  (generateClient o = false -> generateClient_step E o w = (Ok tt, w, [])) /\
  (installStudio o = false -> installStudio_step E o w = (Ok tt, w, [])).
Proof.
  intros E o w.
  unfold installCli_step, initPrisma_step, writeToSchema_step, formatSchema_step,
    runMigration_step, generateClient_step, installStudio_step.
  repeat split; intros H; rewrite H; rewrite ?andb_false_r; reflexivity.
Qed.

(** Claim C7, as amended: with [writeToSchema] on, the step never throws;
    when the schema path can be written (its [prisma] directory exists), the
    schema file afterwards holds, in UTF-8, the previous contents decoded
    from UTF-8 and trimmed of JavaScript white space (empty when there were
    none), two newlines and the fixed models, and no other file or
    directory changes; when it cannot (no [prisma] directory, as when
    [prisma init] did not run), the write fails, is reported, and the world
    is left as it was. *)
Theorem writeToSchema_appends : forall E o w,
  writeToSchema o = true ->
  let old := match lookup (files w) (schemaPath E) with Some c => utf8_decode c | None => [] end in
  let r := writeToSchema_step E o w in
  res_of r = Ok tt /\
  (can_write w (schemaPath E) = true ->
     lookup (files (world_of r)) (schemaPath E) =
       Some (utf8_encode (trim old ++ js nl ++ js nl ++ js addModel)%list) /\
     (forall p, p <> schemaPath E -> lookup (files (world_of r)) p = lookup (files w) p) /\
     dirs (world_of r) = dirs w) /\
  (can_write w (schemaPath E) = false ->
     world_of r = w /\
     last (trace_of r) (EvLog "") = EvError "Failed to write model to Prisma schema.").
Proof.
  intros E o w F old r.
  split; [apply writeToSchema_nt|].
  subst r old. unfold writeToSchema_step. rewrite F.
  unfold trycatch, bind, readFileSync, writeFileSync.
  destruct (lookup (files w) (schemaPath E)) as [c|] eqn:Hl; simpl;
  (split; intros Hc; rewrite Hc; simpl;
   [split; [apply lookup_update_same|split; [intros; apply lookup_update_other; assumption|reflexivity]]
   |split; reflexivity]).
Qed.

(** Claim C7 as stated fails: in a project without a [prisma] directory the
    schema file is not created, so it does not hold the fragment. *)
Lemma writeToSchema_appends_counterexample :
  lookup (files (world_of (writeToSchema_step (demo_env (Some "dev") true)
                             (demo_options false false) demo_world_bare)))
         (schemaPath (demo_env (Some "dev") true))
  <> Some (utf8_encode (trim [] ++ js nl ++ js nl ++ js addModel)%list).
Proof. vm_compute. discriminate. Qed.

(** *** Whole-pipeline trace invariants *)

Ltac unfold_pipeline :=
  unfold setupPrismaORM, promptCli, installCli_step, detectCli, promptInitPrisma,
    initPrisma_step, writeToSchema_step, formatSchema_step, promptRunMigration,
    runMigration_step, promptGenerateClient, generateClient_step, writeClientPlugin,
    promptInstallStudio, installStudio_step.

Lemma trace_bind_prefix : forall A B (m : M A) (k : A -> M B) w,
  exists t, trace_of (bind m k w) = trace_of (m w) ++ t.
Proof.
  intros A B m k w. unfold bind. destruct (m w) as [[[a|e] w1] t1]; simpl.
  - destruct (k a w1) as [[r w2] t2]. exists t2. reflexivity.
  - exists []. rewrite app_nil_r. reflexivity.
Qed.

Lemma trace_trycatch_prefix : forall A (m : M A) h w,
  exists t, trace_of (trycatch m h w) = trace_of (m w) ++ t.
Proof.
  intros A m h w. unfold trycatch. destruct (m w) as [[[a|e] w1] t1]; simpl.
  - exists []. rewrite app_nil_r. reflexivity.
  - destruct (h e w1) as [[r w2] t2]. exists t2. reflexivity.
Qed.

Lemma In_bind_l : forall A B (m : M A) (k : A -> M B) w e,
  In e (trace_of (m w)) -> In e (trace_of (bind m k w)).
Proof.
  intros A B m k w e H. destruct (trace_bind_prefix A B m k w) as [t ->].
  apply in_or_app. left. exact H.
Qed.

Lemma In_trycatch : forall A (m : M A) h w e,
  In e (trace_of (m w)) -> In e (trace_of (trycatch m h w)).
Proof.
  intros A m h w e H. destruct (trace_trycatch_prefix A m h w) as [t ->].
  apply in_or_app. left. exact H.
Qed.

Lemma In_bind_r : forall B (m : M unit) (k : unit -> M B) w e,
  NoThrow m -> (forall w', In e (trace_of (k tt w'))) -> In e (trace_of (bind m k w)).
Proof.
  intros B m k w e Hm Hk. rewrite bind_nt by exact Hm. simpl.
  apply in_or_app. right. apply Hk.
Qed.

(** Claim C9: every Nuxt DevTools tab the pipeline registers is an iframe on
    [http://localhost:5555/], and the GUI-viewer step registers it whenever
    it runs automatically or its prompt is confirmed. *)
Theorem studio_tab_src : forall E o w,
  (forall t, In (EvHook t) (trace_of (setupPrismaORM E o w)) ->
     view_type t = "iframe" /\ view_src t = "http://localhost:5555/") /\
  (autoSetupPrisma o = true \/ prompt_answer E "installStudio" = true ->
     In (EvHook studioTab) (trace_of (promptInstallStudio E o w))).
Proof.
  intros E o w. split.
  - intros t Ht.
    assert (H : TraceAll (fun e => forall t, e = EvHook t ->
                  view_type t = "iframe" /\ view_src t = "http://localhost:5555/")
                (setupPrismaORM E o)).
    { unfold_pipeline. trace_all; intros t' Ht'; inversion Ht'; auto. }
    specialize (H w). rewrite Forall_forall in H. exact (H _ Ht t eq_refl).
  - intros Hc. unfold promptInstallStudio.
    destruct (autoSetupPrisma o) eqn:Ha.
    + apply In_bind_r; [apply installStudio_nt|]. intros w'. left. reflexivity.
    + destruct Hc as [Hc|Hc]; [discriminate|].
      unfold bind at 1. unfold prompts. rewrite Hc. simpl.
      rewrite bind_nt by (no_exc; pose proof (installStudio_nt E o); no_exc).
      simpl. right. apply in_or_app. right. left. reflexivity.
Qed.

(** Claim C10: unless both [installClient] and [generateClient] are on,
    the pipeline runs neither [npm install @prisma/client] nor
    [npx prisma generate]. *)
Theorem client_commands_need_both_flags : forall E o w,
  installClient o && generateClient o = false ->
  ~ In (EvExec (cmd_install_client E)) (trace_of (setupPrismaORM E o w)) /\
  ~ In (EvExec (cmd_generate E)) (trace_of (setupPrismaORM E o w)).
Proof.
  intros E o w Hf.
  assert (H : TraceAll (fun e => forall c, e = EvExec c ->
                c_args c <> ["install"; "@prisma/client"] /\ c_args c <> ["prisma"; "generate"])
                (setupPrismaORM E o)).
  { unfold_pipeline. rewrite Hf. cbv beta iota.
    trace_all; intros c Hc; inversion Hc; subst; cbn; split; discriminate. }
  specialize (H w). rewrite Forall_forall in H.
  split; intros Hin; destruct (H _ Hin _ eq_refl) as [H1 H2]; cbn in *; contradiction.
Qed.

Ltac ev_neq :=
  match goal with
  | H : False |- _ => destruct H
  | H : EvExec _ = EvExec _ |- _ =>
      unfold cmd_version, cmd_install_cli, cmd_init, cmd_format, cmd_migrate,
        cmd_install_client, cmd_generate, cmd_studio in H; inversion H
  | H : _ = _ |- _ => discriminate H
  end.

(** Claim C8, as amended: without [autoSetupPrisma] the CLI step first runs
    [prisma version], and runs the install command exactly when that fails,
    the install prompt is confirmed and [installCli] is on; with
    [autoSetupPrisma] it does not detect the CLI at all and runs the install
    command exactly when [installCli] is on, installed CLI or not. *)
Theorem promptCli_install_gate : forall E o w,
  (autoSetupPrisma o = false ->
     (exists t, trace_of (promptCli E o w) = EvExec (cmd_version E) :: t) /\
     (In (EvExec (cmd_install_cli E)) (trace_of (promptCli E o w)) <->
        snd (exec_oracle E (cmd_version E) w) = None /\
        prompt_answer E "installPrisma" = true /\ installCli o = true)) /\
  (autoSetupPrisma o = true ->
     ~ In (EvExec (cmd_version E)) (trace_of (promptCli E o w)) /\
     (In (EvExec (cmd_install_cli E)) (trace_of (promptCli E o w)) <-> installCli o = true)).
Proof.
  intros E o w. unfold promptCli, installCli_step.
  split; intros Ha; rewrite Ha.
  - unfold detectCli, trycatch, bind, execa, prompts, ret, success, error, emit, console_log.
    cbv beta.
    destruct (exec_oracle E (cmd_version E) w) as [w1 [out|]]; simpl.
    + split; [eexists; reflexivity|].
      split; [intros H; repeat destruct H as [H|H]; ev_neq|intros [H _]; discriminate].
    + destruct (prompt_answer E "installPrisma"), (installCli o);
        try (destruct (exec_oracle E (cmd_install_cli E) w1) as [w2 [out|]]); simpl;
        (split; [eexists; reflexivity|]);
        (split; [intros H; repeat destruct H as [H|H]; try ev_neq; auto
                |intros [_ [H1 H2]]; try discriminate; auto]).
  - unfold trycatch, bind, execa, success, emit, ret.
    destruct (installCli o).
    + destruct (exec_oracle E (cmd_install_cli E) w) as [w2 [out|]]; simpl;
        (split; [intros H; repeat destruct H as [H|H]; ev_neq|split; auto]).
    + simpl. split; [intros H; repeat destruct H as [H|H]; ev_neq|].
      split; [intros H; repeat destruct H as [H|H]; ev_neq|discriminate].
Qed.

(** Claim C8 as stated fails: with [autoSetupPrisma] the install command runs
    although [prisma version] succeeds. *)
Lemma promptCli_install_gate_counterexample :
  snd (exec_oracle (demo_env (Some "dev") true) (cmd_version (demo_env (Some "dev") true))
         demo_world_bare) <> None /\
  In (EvExec (cmd_install_cli (demo_env (Some "dev") true)))
     (trace_of (setupPrismaORM (demo_env (Some "dev") true) (demo_options true false)
                  demo_world_bare)).
Proof.
  split; [vm_compute; discriminate|].
  vm_compute. right. left. reflexivity.
Qed.

(** *** The GUI-viewer step *)

Lemma studio_spawn_in : forall E o w, installStudio o = true ->
  In (EvSpawn (cmd_studio E)) (trace_of (installStudio_step E o w)).
Proof.
  intros E o w F. unfold installStudio_step. rewrite F. apply In_trycatch, In_bind_l.
  unfold spawn. destruct (spawn_oracle E (cmd_studio E)); left; reflexivity.
Qed.

Lemma promptInstallStudio_runs : forall E o w,
  autoSetupPrisma o = true \/ prompt_answer E "installStudio" = true ->
  In (EvHook studioTab) (trace_of (promptInstallStudio E o w)) /\
  (installStudio o = true -> In (EvSpawn (cmd_studio E)) (trace_of (promptInstallStudio E o w))).
Proof.
  intros E o w Hc. unfold promptInstallStudio.
  destruct (autoSetupPrisma o) eqn:Ha.
  - split.
    + apply In_bind_r; [apply installStudio_nt|]. intros w'. left. reflexivity.
    + intros F. apply In_bind_l, studio_spawn_in, F.
  - destruct Hc as [Hc|Hc]; [discriminate|].
    split; [|intros F]; unfold bind at 1; unfold prompts; rewrite Hc; cbv beta iota;
      rewrite bind_nt by (no_exc; pose proof (installStudio_nt E o); no_exc);
      cbn [trace_of app].
    + right. apply in_or_app. right. simpl. left. reflexivity.
    + right. apply in_or_app. left. apply In_trycatch, studio_spawn_in, F.
Qed.

Lemma promptInstallStudio_asks : forall E o w, autoSetupPrisma o = false ->
  exists t, trace_of (promptInstallStudio E o w) =
    EvPrompt "installStudio"
      "Do you want to view and edit your data by installing Prisma Studio in Nuxt DevTools?" :: t.
Proof.
  intros E o w Ha. unfold promptInstallStudio. rewrite Ha. cbv beta iota.
  match goal with
  | |- exists t, trace_of (bind ?m ?k ?w) = _ => destruct (trace_bind_prefix _ _ m k w) as [t ->]
  end.
  exists t. reflexivity.
Qed.

(** Claim C1, as amended: with [skipInstallations] the only calls the
    pipeline makes are those of the GUI-viewer step (its prompt, the
    [prisma studio] process and the DevTools tab); no CLI detection or
    install, init, schema access, format, migration, client install or
    generation, or accessor write.  When the setup is force-skipped or the
    npm lifecycle event is [dev:prepare], [postinstall] or [test], it makes
    no call at all, only console output.  Otherwise the GUI-viewer step
    still runs, and it is all the pipeline does after its banner: it asks
    its question (without [autoSetupPrisma]), and when it runs automatically
    or the question is confirmed it registers the DevTools tab and, with
    [installStudio], spawns [prisma studio]. *)
Theorem skipInstallations_only_studio : forall E o w,
  skipInstallations o = true ->
  Forall (fun e => match e with
                   | EvSpawn c => c = cmd_studio E
                   | EvPrompt n _ => n = "installStudio"
                   | EvHook t => t = studioTab
                   | EvLog _ | EvSuccess _ | EvError _ => True
                   | _ => False
                   end) (trace_of (setupPrismaORM E o w)) /\
  (force_skip_prisma_setup E = true \/ studio_allowed E = false ->
   Forall (fun e => match e with
                    | EvLog _ | EvSuccess _ | EvError _ => True
                    | _ => False
                    end) (trace_of (setupPrismaORM E o w))) /\
  (force_skip_prisma_setup E = false -> studio_allowed E = true ->
   setupPrismaORM E o w =
     (Ok tt, world_of (promptInstallStudio E o w),
      EvLog "Setting up Prisma ORM.." :: trace_of (promptInstallStudio E o w)) /\
   (autoSetupPrisma o = false ->
      exists t, trace_of (setupPrismaORM E o w) =
        EvLog "Setting up Prisma ORM.." ::
        EvPrompt "installStudio"
          "Do you want to view and edit your data by installing Prisma Studio in Nuxt DevTools?"
        :: t) /\
   (autoSetupPrisma o = true \/ prompt_answer E "installStudio" = true ->
      In (EvHook studioTab) (trace_of (setupPrismaORM E o w)) /\
      (installStudio o = true ->
         In (EvSpawn (cmd_studio E)) (trace_of (setupPrismaORM E o w))))).
Proof.
  intros E o w Hs. split; [|split].
  - refine ((_ : TraceAll _ (setupPrismaORM E o)) w).
    unfold setupPrismaORM, promptInstallStudio, installStudio_step.
    rewrite Hs. cbv beta iota delta [negb].
    trace_all; first [exact I | reflexivity].
  - intros Hg. refine ((_ : TraceAll _ (setupPrismaORM E o)) w). unfold setupPrismaORM.
    rewrite Hs. cbv beta iota delta [negb].
    destruct Hg as [Hg|Hg]; rewrite Hg.
    + trace_all; exact I.
    + destruct (force_skip_prisma_setup E); trace_all; exact I.
  - intros Hf Ha.
    assert (Eq : setupPrismaORM E o w =
      (Ok tt, world_of (promptInstallStudio E o w),
       EvLog "Setting up Prisma ORM.." :: trace_of (promptInstallStudio E o w))).
    { unfold setupPrismaORM. rewrite bind_nt by apply NT_emit.
      change (world_of (console_log "Setting up Prisma ORM.." w)) with w.
      change (trace_of (console_log "Setting up Prisma ORM.." w))
        with [EvLog "Setting up Prisma ORM.."].
      cbv beta. rewrite Hf, Hs, Ha. cbv beta iota delta [negb].
      rewrite bind_nt by apply NT_ret.
      change (world_of (ret tt w)) with w. change (trace_of (ret tt w)) with (@nil event).
      cbv beta. rewrite promptInstallStudio_nt. reflexivity. }
    split; [exact Eq|]. rewrite Eq. cbn [trace_of]. split.
    + intros Hn. destruct (promptInstallStudio_asks E o w Hn) as [t ->]. exists t. reflexivity.
    + intros Hc. destruct (promptInstallStudio_runs E o w Hc) as [H1 H2].
      split; [right; exact H1|intros F; right; exact (H2 F)].
Qed.

(** Claim C1 as stated fails: with [skipInstallations] on, in a [dev] run,
    the GUI-viewer step still spawns [npx prisma studio]. *)
Lemma skipInstallations_only_studio_counterexample :
  In (EvSpawn (cmd_studio (demo_env (Some "dev") true)))
     (trace_of (setupPrismaORM (demo_env (Some "dev") true) (demo_options false true)
                  demo_world_bare)).
Proof. vm_compute. right. right. left. reflexivity. Qed.

(** *** Under [autoSetupPrisma], each enabled step runs its command *)

Section Auto.

Variable E : env.
Variable o : ModuleOptions.
Hypothesis Ha : autoSetupPrisma o = true.

Lemma In_execa : forall c w, In (EvExec c) (trace_of (execa E c w)).
Proof. intros c w. unfold execa. destruct (exec_oracle E c w) as [w' [out|]]; left; reflexivity. Qed.

Lemma auto_promptCli_installs : installCli o = true ->
  forall w, In (EvExec (cmd_install_cli E)) (trace_of (promptCli E o w)).
Proof.
  intros F w. unfold promptCli. rewrite Ha. apply In_bind_l.
  unfold installCli_step. rewrite F. apply In_trycatch, In_bind_l, In_execa.
Qed.

Lemma auto_promptRunMigration_runs : runMigration o = true ->
  forall w, In (EvExec (cmd_migrate E)) (trace_of (promptRunMigration E o w)).
Proof.
  intros F w. unfold promptRunMigration. rewrite Ha.
  unfold runMigration_step. rewrite F. apply In_trycatch, In_bind_l, In_execa.
Qed.

Lemma auto_promptGenerateClient_runs : installClient o && generateClient o = true ->
  forall w, In (EvExec (cmd_install_client E)) (trace_of (promptGenerateClient E o w)).
Proof.
  intros F w. unfold promptGenerateClient. rewrite Ha. apply In_trycatch.
  unfold generateClient_step. rewrite F. apply In_trycatch, In_bind_l, In_execa.
Qed.

Lemma auto_promptInstallStudio_runs : installStudio o = true ->
  forall w, In (EvSpawn (cmd_studio E)) (trace_of (promptInstallStudio E o w)).
Proof.
  intros F w. unfold promptInstallStudio. rewrite Ha. apply In_bind_l.
  unfold installStudio_step. rewrite F. apply In_trycatch, In_bind_l.
  unfold spawn. destruct (spawn_oracle E (cmd_studio E)); left; reflexivity.
Qed.

Lemma auto_init_chain : forall w,
  path_exists w (schemaPath E) = false ->
  forall e, (forall w', In e (trace_of ((initPrisma_step E o ;; writeToSchema_step E o ;;
                                          formatSchema_step E o) w'))) ->
  In e (trace_of (promptInitPrisma E o w)).
Proof.
  intros w Hp e He. unfold promptInitPrisma.
  unfold bind at 1. unfold existsSync. rewrite Hp. cbv beta iota.
  destruct (((console_log "Prisma schema file does not exist.");;
             (if negb false then
                if autoSetupPrisma o then
                  initPrisma_step E o;; writeToSchema_step E o;; formatSchema_step E o
                else _ else ret tt)) w) as [[r w2] t2] eqn:Hr.
  simpl. right.
  rewrite bind_nt in Hr by apply NT_emit. cbv beta iota in Hr. rewrite Ha in Hr.
  injection Hr as _ _ <-. simpl. right. apply He.
Qed.

Lemma auto_promptInitPrisma_runs : forall w,
  path_exists w (schemaPath E) = false ->
  (initPrisma o = true -> In (EvExec (cmd_init E)) (trace_of (promptInitPrisma E o w))) /\
  (writeToSchema o = true -> In (EvRead (schemaPath E)) (trace_of (promptInitPrisma E o w))) /\
  (formatSchema o = true -> In (EvExec (cmd_format E)) (trace_of (promptInitPrisma E o w))).
Proof.
  intros w Hp. repeat split; intros F; apply auto_init_chain; [exact Hp| |exact Hp| |exact Hp|];
    intros w'.
  - apply In_bind_l. unfold initPrisma_step. rewrite F.
    apply In_trycatch, In_bind_l, In_execa.
  - apply In_bind_r; [apply initPrisma_nt|intros w''].
    apply In_bind_l. unfold writeToSchema_step. rewrite F.
    apply In_trycatch, In_bind_l, In_trycatch.
    unfold readFileSync. destruct (lookup (files w'') (schemaPath E)); left; reflexivity.
  - apply In_bind_r; [apply initPrisma_nt|intros w''].
    apply In_bind_r; [apply writeToSchema_nt|intros w'''].
    unfold formatSchema_step. rewrite F.
    apply In_trycatch, In_bind_l, In_execa.
Qed.

End Auto.

Lemma accessor_neq_schema : forall E, cwd E ++ ["lib"; "prisma.ts"] <> schemaPath E.
Proof.
  intros E H. apply (f_equal (fun p => last p "")) in H.
  unfold schemaPath, resolveProject in H.
  rewrite !last_app_ne in H by discriminate. discriminate H.
Qed.

Lemma Forall_run_all : forall (P : event -> Prop) ms w,
  Forall (fun m => TraceAll P m) ms -> Forall P (snd (run_all ms w)).
Proof.
  intros P ms. induction ms as [|m ms IH]; intros w H; [constructor|].
  inversion H as [|? ? Hm Hms]; subst. rewrite run_all_cons. cbn [snd].
  apply Forall_app. split; [apply Hm|apply IH, Hms].
Qed.

(** When the schema file exists as step 2 looks for it, the pipeline runs
    no [prisma init] or [prisma format] and neither reads nor writes the
    schema file, with or without [autoSetupPrisma]. *)
Lemma pipeline_schema_exists : forall E o w,
  force_skip_prisma_setup E = false -> skipInstallations o = false ->
  path_exists (world_of (promptCli E o w)) (schemaPath E) = true ->
  Forall (no_init_chain E) (trace_of (setupPrismaORM E o w)).
Proof.
  intros E o w Hf Hs Hex.
  rewrite setupPrismaORM_run_all. cbn [trace_of]. unfold pipeline_steps. rewrite Hf, Hs.
  cbv beta iota delta [negb app].
  rewrite run_all_cons. change (world_of (console_log "Setting up Prisma ORM.." w)) with w.
  cbn [snd]. apply Forall_app. split; [repeat constructor|].
  rewrite run_all_cons. cbn [snd]. apply Forall_app. split.
  { refine ((_ : TraceAll _ (promptCli E o)) w).
    unfold promptCli, installCli_step, detectCli.
    trace_all; cbn [no_init_chain]; first [exact I | split; cbn; discriminate]. }
  rewrite run_all_cons. cbn [snd]. apply Forall_app. split.
  { unfold promptInitPrisma at 1. unfold bind at 1, existsSync. rewrite Hex.
    cbv beta iota. rewrite bind_nt by (no_exc).
    cbn [trace_of app]. repeat constructor. }
  apply Forall_run_all.
  repeat constructor; try (destruct (studio_allowed E); repeat constructor).
  all: unfold promptRunMigration, runMigration_step, promptGenerateClient, generateClient_step,
         writeClientPlugin, promptInstallStudio, installStudio_step.
  all: trace_all; cbn [no_init_chain];
    first [exact I | split; cbn; discriminate | apply accessor_neq_schema].
Qed.

(** Claim C2, as amended: with [autoSetupPrisma] the pipeline asks no
    question and never runs the CLI detection [prisma version].  When the
    setup is not force-skipped and [skipInstallations] is off, the CLI
    install, migration and client install/generate steps run whenever their
    flags are on; the init, schema-write and format steps run when their
    flags are on if the schema file is absent when step 2 looks for it, and
    an existing schema file skips all three (no [prisma init], no schema
    read or write, no [prisma format]); and the GUI-viewer step runs when
    [installStudio] is on unless the npm lifecycle event is [dev:prepare],
    [postinstall] or [test]. *)
Theorem autoSetupPrisma_no_prompt : forall E o w,
  autoSetupPrisma o = true ->
  Forall (fun e => match e with EvPrompt _ _ => False | _ => True end)
         (trace_of (setupPrismaORM E o w)) /\
  ~ In (EvExec (cmd_version E)) (trace_of (setupPrismaORM E o w)) /\
  (force_skip_prisma_setup E = false -> skipInstallations o = false ->
   (path_exists (world_of (promptCli E o w)) (schemaPath E) = true ->
      ~ In (EvExec (cmd_init E)) (trace_of (setupPrismaORM E o w)) /\
      ~ In (EvRead (schemaPath E)) (trace_of (setupPrismaORM E o w)) /\
      (forall c, ~ In (EvWrite (schemaPath E) c) (trace_of (setupPrismaORM E o w))) /\
      ~ In (EvExec (cmd_format E)) (trace_of (setupPrismaORM E o w))) /\
   (installCli o = true ->
      In (EvExec (cmd_install_cli E)) (trace_of (setupPrismaORM E o w))) /\
   (runMigration o = true ->
      In (EvExec (cmd_migrate E)) (trace_of (setupPrismaORM E o w))) /\
   (installClient o && generateClient o = true ->
      In (EvExec (cmd_install_client E)) (trace_of (setupPrismaORM E o w))) /\
   (path_exists (world_of (promptCli E o w)) (schemaPath E) = false ->
      (initPrisma o = true ->
         In (EvExec (cmd_init E)) (trace_of (setupPrismaORM E o w))) /\
      (writeToSchema o = true ->
         In (EvRead (schemaPath E)) (trace_of (setupPrismaORM E o w))) /\
      (formatSchema o = true ->
         In (EvExec (cmd_format E)) (trace_of (setupPrismaORM E o w)))) /\
   (studio_allowed E = true -> installStudio o = true ->
      In (EvSpawn (cmd_studio E)) (trace_of (setupPrismaORM E o w)))).
Proof.
  intros E o w Ha. split.
  { refine ((_ : TraceAll _ (setupPrismaORM E o)) w).
    unfold_pipeline. rewrite Ha. cbv beta iota.
    trace_all; exact I. }
  split.
  { intros Hin.
    assert (T : TraceAll (fun e => forall c, e = EvExec c -> c_args c <> ["version"])
                         (setupPrismaORM E o)).
    { unfold_pipeline. rewrite Ha. cbv beta iota.
      trace_all; intros c Hc; inversion Hc; subst; cbn; discriminate. }
    specialize (T w). rewrite Forall_forall in T. exact (T _ Hin _ eq_refl eq_refl). }
  intros Hf Hs. split.
  { intros Hex. pose proof (pipeline_schema_exists E o w Hf Hs Hex) as HQ.
    rewrite Forall_forall in HQ.
    split; [|split; [|split]].
    - intros Hin. destruct (HQ _ Hin) as [H1 _]. apply H1. reflexivity.
    - intros Hin. exact (HQ _ Hin eq_refl).
    - intros c Hin. exact (HQ _ Hin eq_refl).
    - intros Hin. destruct (HQ _ Hin) as [_ H2]. apply H2. reflexivity. }
  rewrite setupPrismaORM_run_all. unfold pipeline_steps. rewrite Hf, Hs.
  cbn [negb app]. rewrite !run_all_cons.
  change (world_of (console_log "Setting up Prisma ORM.." w)) with w.
  cbn [snd fst trace_of].
  set (w1 := w). set (w2 := world_of (promptCli E o w1)).
  set (w3 := world_of (promptInitPrisma E o w2)).
  set (w4 := world_of (promptRunMigration E o w3)).
  set (w5 := world_of (promptGenerateClient E o w4)).
  set (w6 := world_of (writeClientPlugin E w5)).
  repeat split; intros.
  - apply in_or_app; right. apply in_or_app; left. apply auto_promptCli_installs; assumption.
  - apply in_or_app; right. do 2 (apply in_or_app; right). apply in_or_app; left.
    apply auto_promptRunMigration_runs; assumption.
  - apply in_or_app; right. do 3 (apply in_or_app; right). apply in_or_app; left.
    apply auto_promptGenerateClient_runs; assumption.
  - apply in_or_app; right. apply in_or_app; right. apply in_or_app; left.
    apply auto_promptInitPrisma_runs; assumption.
  - apply in_or_app; right. apply in_or_app; right. apply in_or_app; left.
    apply auto_promptInitPrisma_runs; assumption.
  - apply in_or_app; right. apply in_or_app; right. apply in_or_app; left.
    apply auto_promptInitPrisma_runs; assumption.
  - match goal with H : studio_allowed E = true |- _ => rewrite H end.
    rewrite !run_all_cons. cbn [snd fst].
    apply in_or_app; right. do 5 (apply in_or_app; right). apply in_or_app; left.
    apply auto_promptInstallStudio_runs; assumption.
Qed.

(** Claim C2 as stated fails: with [autoSetupPrisma] and [initPrisma] on, a
    project that already has a schema file gets no [prisma init]. *)
Lemma autoSetupPrisma_no_prompt_counterexample :
  autoSetupPrisma (demo_options true false) = true /\
  initPrisma (demo_options true false) = true /\
  ~ In (EvExec (cmd_init (demo_env (Some "dev") true)))
       (trace_of (setupPrismaORM (demo_env (Some "dev") true) (demo_options true false)
                    demo_world_schema)).
Proof.
  split; [reflexivity|]. split; [reflexivity|].
  vm_compute. intros H. repeat destruct H as [H|H]; first [discriminate H | exact H].
Qed.

(** ** Witnesses: the claims' theorems applied to concrete projects *)

Lemma setupPrismaORM_log_and_continue_witness :
  exec_oracle (demo_env (Some "dev") false) (cmd_version (demo_env (Some "dev") false))
    demo_world_bare = (demo_world_bare, None) /\
  autoSetupPrisma (demo_options false false) = false /\
  exists t, trace_of (promptCli (demo_env (Some "dev") false) (demo_options false false)
                        demo_world_bare) =
    [EvExec (cmd_version (demo_env (Some "dev") false)); EvError "Prisma CLI is not installed.";
     EvPrompt "installPrisma" "Do you want to install Prisma CLI?"] ++ t.
Proof.
  split; [reflexivity|]. split; [reflexivity|].
  apply (proj2 (proj2 (proj2 (proj2 (proj2 (proj2 (proj2 (proj2 (proj2 (proj2
           (setupPrismaORM_log_and_continue (demo_env (Some "dev") false)
              (demo_options false false))))))))))) demo_world_bare demo_world_bare);
  reflexivity.
Defined.

Lemma writeClientPlugin_keeps_accessor_witness :
  lookup (files (mkWorld [(demo_root ++ ["lib"; "prisma.ts"], "export default db")] [demo_root]))
         (accessorPath (demo_env None true)) = Some "export default db" /\
  lookup (files (world_of (writeClientPlugin (demo_env None true)
            (mkWorld [(demo_root ++ ["lib"; "prisma.ts"], "export default db")] [demo_root]))))
         (accessorPath (demo_env None true)) = Some "export default db" /\
  cwd (demo_env None true) = rootDir (demo_env None true) /\
  lookup (files (world_of (writeClientPlugin (demo_env None true)
            (mkWorld [(demo_root ++ ["lib"; "prisma.ts"], "export default db")] [demo_root]))))
         (cwd (demo_env None true) ++ ["lib"; "prisma.ts"]) = Some "export default db".
Proof.
  split; [reflexivity|]. split.
  - apply (proj1 (writeClientPlugin_keeps_accessor (demo_env None true)
             (mkWorld [(demo_root ++ ["lib"; "prisma.ts"], "export default db")] [demo_root])
             "export default db")); reflexivity.
  - split; [reflexivity|].
    apply (proj2 (writeClientPlugin_keeps_accessor (demo_env None true)
             (mkWorld [(demo_root ++ ["lib"; "prisma.ts"], "export default db")] [demo_root])
             "export default db")); reflexivity.
Defined.

Lemma flag_false_step_noop_witness :
  installCli (mkOptions None [] "colorless" false false false false false false false false false false) = false /\
  installCli_step (demo_env None true)
    (mkOptions None [] "colorless" false false false false false false false false false false)
    demo_world_bare = (Ok tt, demo_world_bare, []).
Proof.
  split; [reflexivity|].
  apply (proj1 (flag_false_step_noop (demo_env None true)
    (mkOptions None [] "colorless" false false false false false false false false false false)
    demo_world_bare)); reflexivity.
Defined.

Lemma writeToSchema_appends_witness :
  writeToSchema (demo_options false false) = true /\
  can_write (demo_world_schema_with demo_schema_ws) (schemaPath (demo_env None true)) = true /\
  lookup (files (world_of (writeToSchema_step (demo_env None true) (demo_options false false)
                             (demo_world_schema_with demo_schema_ws))))
         (schemaPath (demo_env None true))
  = Some ("datasource db {}" ++ nl ++ nl ++ addModel)%string.
Proof.
  split; [reflexivity|]. split; [vm_compute; reflexivity|].
  pose proof (proj1 (proj1 (proj2 (writeToSchema_appends (demo_env None true)
           (demo_options false false) (demo_world_schema_with demo_schema_ws) eq_refl))
           ltac:(vm_compute; reflexivity))) as H.
  cbv zeta in H. rewrite H. vm_compute. reflexivity.
Defined.

Lemma promptCli_install_gate_witness :
  autoSetupPrisma (demo_options false false) = false /\
  (In (EvExec (cmd_install_cli (demo_env None false)))
      (trace_of (promptCli (demo_env None false) (demo_options false false) demo_world_bare)) <->
   snd (exec_oracle (demo_env None false) (cmd_version (demo_env None false)) demo_world_bare) = None /\
   prompt_answer (demo_env None false) "installPrisma" = true /\
   installCli (demo_options false false) = true).
Proof.
  split; [reflexivity|].
  apply (proj2 (proj1 (promptCli_install_gate (demo_env None false) (demo_options false false)
                         demo_world_bare) eq_refl)).
Defined.

Lemma studio_tab_src_witness :
  autoSetupPrisma (demo_options true false) = true /\
  In (EvHook studioTab)
     (trace_of (promptInstallStudio (demo_env (Some "dev") true) (demo_options true false)
                  demo_world_bare)).
Proof.
  split; [reflexivity|].
  apply (proj2 (studio_tab_src (demo_env (Some "dev") true) (demo_options true false)
                  demo_world_bare)).
  left; reflexivity.
Defined.

Lemma client_commands_need_both_flags_witness :
  installClient (mkOptions None [] "colorless" true true true true true false true true false true)
  && generateClient (mkOptions None [] "colorless" true true true true true false true true false true)
  = false /\
  ~ In (EvExec (cmd_install_client (demo_env (Some "dev") true)))
       (trace_of (setupPrismaORM (demo_env (Some "dev") true)
          (mkOptions None [] "colorless" true true true true true false true true false true)
          demo_world_bare)).
Proof.
  split; [reflexivity|].
  apply (proj1 (client_commands_need_both_flags (demo_env (Some "dev") true)
    (mkOptions None [] "colorless" true true true true true false true true false true)
    demo_world_bare eq_refl)).
Defined.

Lemma skipInstallations_only_studio_witness :
  skipInstallations (demo_options false true) = true /\
  Forall (fun e => match e with
                   | EvLog _ | EvSuccess _ | EvError _ => True
                   | _ => False
                   end)
    (trace_of (setupPrismaORM (demo_env (Some "postinstall") true) (demo_options false true)
                 demo_world_bare)) /\
  force_skip_prisma_setup (demo_env (Some "dev") true) = false /\
  studio_allowed (demo_env (Some "dev") true) = true /\
  prompt_answer (demo_env (Some "dev") true) "installStudio" = true /\
  In (EvSpawn (cmd_studio (demo_env (Some "dev") true)))
     (trace_of (setupPrismaORM (demo_env (Some "dev") true) (demo_options false true)
                  demo_world_bare)).
Proof.
  split; [reflexivity|]. split.
  { apply (proj1 (proj2 (skipInstallations_only_studio (demo_env (Some "postinstall") true)
                    (demo_options false true) demo_world_bare eq_refl))).
    right. vm_compute. reflexivity. }
  split; [reflexivity|]. split; [reflexivity|]. split; [reflexivity|].
  apply (proj2 (proj2 (proj2 (proj2 (proj2 (skipInstallations_only_studio
           (demo_env (Some "dev") true) (demo_options false true) demo_world_bare eq_refl))
           eq_refl eq_refl)) (or_intror eq_refl)) eq_refl).
Defined.

Lemma autoSetupPrisma_no_prompt_witness :
  autoSetupPrisma (demo_options true false) = true /\
  In (EvExec (cmd_init (demo_env (Some "dev") true)))
     (trace_of (setupPrismaORM (demo_env (Some "dev") true) (demo_options true false)
                  demo_world_bare)) /\
  ~ In (EvExec (cmd_init (demo_env (Some "dev") true)))
       (trace_of (setupPrismaORM (demo_env (Some "dev") true) (demo_options true false)
                    demo_world_schema)).
Proof.
  split; [reflexivity|]. split.
  - pose proof (proj2 (proj2 (autoSetupPrisma_no_prompt (demo_env (Some "dev") true)
                        (demo_options true false) demo_world_bare eq_refl)) eq_refl eq_refl) as H.
    apply (proj1 (proj1 (proj2 (proj2 (proj2 (proj2 H)))) ltac:(vm_compute; reflexivity)) eq_refl).
  - pose proof (proj2 (proj2 (autoSetupPrisma_no_prompt (demo_env (Some "dev") true)
                        (demo_options true false) demo_world_schema eq_refl)) eq_refl eq_refl) as H.
    apply (proj1 (proj1 H ltac:(vm_compute; reflexivity))).
Defined.

(** ** Further properties of the code *)

(** *** Helpers: prompts and existence tests that keep their answer *)

Lemma TA_bind_prompts : forall (P : event -> Prop) E n msg B (k : bool -> M B),
  P (EvPrompt n msg) -> TraceAll P (k (prompt_answer E n)) ->
  TraceAll P (bind (prompts E n msg) k).
Proof.
  intros P E n msg B k Hp Hk w. unfold bind, prompts.
  specialize (Hk w). destruct (k (prompt_answer E n) w) as [[r w2] t2]; simpl in *.
  constructor; assumption.
Qed.

Lemma In_bind_prompts : forall E n msg B (k : bool -> M B) b e w,
  prompt_answer E n = b -> (forall w', In e (trace_of (k b w'))) ->
  In e (trace_of (bind (prompts E n msg) k w)).
Proof.
  intros E n msg B k b e w Hb Hk. unfold bind, prompts. rewrite Hb.
  specialize (Hk w). destruct (k b w) as [[r w2] t2]; simpl in *. right; assumption.
Qed.

Lemma In_bind_existsSync : forall B p (k : bool -> M B) b e w,
  path_exists w p = b -> In e (trace_of (k b w)) ->
  In e (trace_of (bind (existsSync p) k w)).
Proof.
  intros B p k b e w Hb Hk. unfold bind, existsSync. rewrite Hb.
  destruct (k b w) as [[r w2] t2]; simpl in *. right; assumption.
Qed.

(** Like [trace_all], but a prompt's answer is [prompt_answer] and every
    branch keeps the equation of its test. *)
Ltac trace_all_keep :=
  repeat match goal with
  | |- TraceAll _ (bind (prompts _ _ _) _) => apply TA_bind_prompts; [|cbv beta]
  | |- TraceAll _ (bind _ _) => apply TA_bind; [|intro]
  | |- TraceAll _ (trycatch _ _) => apply TA_trycatch; [|intro]
  | |- TraceAll _ (if ?b then _ else _) => destruct b eqn:?
  | |- TraceAll _ (match ?x with Some _ => _ | None => _ end) => destruct x eqn:?
  | |- TraceAll _ (ret _) => apply TA_ret
  | |- TraceAll _ (throw _) => apply TA_throw
  | |- TraceAll _ (emit _) => apply TA_emit
  | |- TraceAll _ (console_log _) => apply TA_emit
  | |- TraceAll _ (success _) => apply TA_emit
  | |- TraceAll _ (error _) => apply TA_emit
  | |- TraceAll _ (hook_custom_tab _) => apply TA_emit
  | |- TraceAll _ (execa _ _) => apply TA_execa
  | |- TraceAll _ (spawn _ _) => apply TA_spawn
  | |- TraceAll _ (existsSync _) => apply TA_existsSync
  | |- TraceAll _ (readFileSync _) => apply TA_readFileSync
  | |- TraceAll _ (writeFileSync _ _) => apply TA_writeFileSync
  | |- TraceAll _ (mkdirSync _) => apply TA_mkdirSync
  end.

(** *** Path facts *)

Lemma accessor_neq_lib : forall E, accessorPath E <> cwd E ++ ["lib"].
Proof.
  intros E H. apply (f_equal (fun p => last p "")) in H.
  unfold accessorPath, resolveProject in H.
  rewrite !last_app_ne in H by discriminate. discriminate H.
Qed.

Lemma lib_neq_file : forall (d : path), d ++ ["lib"] <> d ++ ["lib"; "prisma.ts"].
Proof. intros d H. apply app_inv_head in H. discriminate H. Qed.

Lemma removelast_lib_file : forall (d : path), removelast (d ++ ["lib"; "prisma.ts"]) = d ++ ["lib"].
Proof. intros d. rewrite removelast_app by discriminate. reflexivity. Qed.

Lemma removelast_lib : forall (d : path), removelast (d ++ ["lib"]) = d.
Proof. intros d. rewrite removelast_app by discriminate. apply app_nil_r. Qed.

Lemma path_eqb_false : forall p q, p <> q -> path_eqb p q = false.
Proof.
  intros p q H. destruct (path_eqb p q) eqn:E; [apply path_eqb_spec in E; contradiction|reflexivity].
Qed.

Lemma update_update_same : forall fs p c, update (update fs p c) p c = update fs p c.
Proof.
  induction fs as [|[q c'] fs IH]; intros p c; simpl.
  - rewrite (proj2 (path_eqb_spec p p) eq_refl). reflexivity.
  - destruct (path_eqb p q) eqn:Hpq; simpl; rewrite Hpq; [reflexivity|rewrite IH; reflexivity].
Qed.

Lemma is_dir_cons : forall fs d ds p,
  is_dir (mkWorld fs (d :: ds)) p = path_eqb p d || is_dir (mkWorld fs ds) p.
Proof. reflexivity. Qed.

Lemma path_exists_update_other : forall fs ds p q c, q <> p ->
  path_exists (mkWorld (update fs p c) ds) q = path_exists (mkWorld fs ds) q.
Proof.
  intros fs ds p q c H. unfold path_exists, is_file. cbn [files].
  rewrite lookup_update_other by assumption. reflexivity.
Qed.

Lemma path_exists_update_same : forall fs ds p c,
  path_exists (mkWorld (update fs p c) ds) p = true.
Proof.
  intros fs ds p c. unfold path_exists, is_file. cbn [files].
  rewrite lookup_update_same. reflexivity.
Qed.

Lemma path_exists_mkdir_other : forall fs ds d q, q <> d ->
  path_exists (mkWorld fs (d :: ds)) q = path_exists (mkWorld fs ds) q.
Proof.
  intros fs ds d q H. unfold path_exists. rewrite is_dir_cons, path_eqb_false by assumption.
  reflexivity.
Qed.

Lemma path_exists_mkdir_same : forall fs ds d, path_exists (mkWorld fs (d :: ds)) d = true.
Proof.
  intros fs ds d. unfold path_exists. rewrite is_dir_cons, (proj2 (path_eqb_spec d d) eq_refl).
  apply orb_true_r.
Qed.

(** *** The preorder [keeps] and the computations that respect it *)

Lemma keeps_refl : forall E w, keeps E w w.
Proof. intros E w. split; auto. Qed.

Lemma keeps_trans : forall E w1 w2 w3, keeps E w1 w2 -> keeps E w2 w3 -> keeps E w1 w3.
Proof.
  intros E w1 w2 w3 [D1 F1] [D2 F2]. split; auto.
  intros p H1 H2. rewrite F2, F1 by assumption. reflexivity.
Qed.

Section KeepsLemmas.

Variable E : env.

Lemma K_ret : forall A (a : A), Keeps E (ret a).
Proof. intros A a w. apply keeps_refl. Qed.

Lemma K_emit : forall e, Keeps E (emit e).
Proof. intros e w. apply keeps_refl. Qed.

Lemma K_bind : forall A B (m : M A) (k : A -> M B),
  Keeps E m -> (forall a, Keeps E (k a)) -> Keeps E (bind m k).
Proof.
  intros A B m k Hm Hk w. unfold bind. specialize (Hm w).
  destruct (m w) as [[[a|e] w1] t1]; simpl in *; [|exact Hm].
  specialize (Hk a w1). destruct (k a w1) as [[r w2] t2]; simpl in *.
  eapply keeps_trans; eassumption.
Qed.

Lemma K_trycatch : forall A (m : M A) (h : string -> M A),
  Keeps E m -> (forall e, Keeps E (h e)) -> Keeps E (trycatch m h).
Proof.
  intros A m h Hm Hh w. unfold trycatch. specialize (Hm w).
  destruct (m w) as [[[a|e] w1] t1]; simpl in *; [exact Hm|].
  specialize (Hh e w1). destruct (h e w1) as [[r w2] t2]; simpl in *.
  eapply keeps_trans; eassumption.
Qed.

Lemma K_execa : forall c, (forall w, keeps E w (fst (exec_oracle E c w))) -> Keeps E (execa E c).
Proof.
  intros c H w. specialize (H w). unfold execa.
  destruct (exec_oracle E c w) as [w' [out|]]; exact H.
Qed.

Lemma K_spawn : forall c, Keeps E (spawn E c).
Proof. intros c w. unfold spawn. destruct (spawn_oracle E c); apply keeps_refl. Qed.

Lemma K_prompts : forall n msg, Keeps E (prompts E n msg).
Proof. intros n msg w. apply keeps_refl. Qed.

Lemma K_existsSync : forall p, Keeps E (existsSync p).
Proof. intros p w. apply keeps_refl. Qed.

Lemma K_readFileSync : forall p, Keeps E (readFileSync p).
Proof. intros p w. unfold readFileSync. destruct (lookup (files w) p); apply keeps_refl. Qed.

Lemma K_writeFileSync : forall p c,
  p = schemaPath E \/ p = cwd E ++ ["lib"; "prisma.ts"] -> Keeps E (writeFileSync p c).
Proof.
  intros p c Hp w. unfold writeFileSync. destruct (can_write w p); [|apply keeps_refl].
  split; [auto|]. intros q H1 H2. simpl. apply lookup_update_other.
  destruct Hp; congruence.
Qed.

Lemma K_mkdirSync : forall p, Keeps E (mkdirSync p).
Proof.
  intros p w. unfold mkdirSync. destruct (can_mkdir w p); [|apply keeps_refl].
  split; [|reflexivity]. intros q H. unfold is_dir in *. simpl. rewrite H, orb_true_r. reflexivity.
Qed.

End KeepsLemmas.

Ltac keeps_all :=
  repeat match goal with
  | |- Keeps _ (bind _ _) => apply K_bind; [|intro]
  | |- Keeps _ (trycatch _ _) => apply K_trycatch; [|intro]
  | |- Keeps _ (if ?b then _ else _) => destruct b
  | |- Keeps _ (ret _) => apply K_ret
  | |- Keeps _ (emit _) => apply K_emit
  | |- Keeps _ (console_log _) => apply K_emit
  | |- Keeps _ (success _) => apply K_emit
  | |- Keeps _ (error _) => apply K_emit
  | |- Keeps _ (hook_custom_tab _) => apply K_emit
  | |- Keeps _ (execa _ _) => apply K_execa
  | |- Keeps _ (spawn _ _) => apply K_spawn
  | |- Keeps _ (prompts _ _ _) => apply K_prompts
  | |- Keeps _ (existsSync _) => apply K_existsSync
  | |- Keeps _ (readFileSync _) => apply K_readFileSync
  | |- Keeps _ (writeFileSync _ _) => apply K_writeFileSync
  | |- Keeps _ (mkdirSync _) => apply K_mkdirSync
  end.

(** The world [writeClientPlugin] leaves, case by case. *)
Lemma writeClientPlugin_world : forall E w,
  let l := cwd E ++ ["lib"] in
  let t := cwd E ++ ["lib"; "prisma.ts"] in
  world_of (writeClientPlugin E w) =
  if path_exists w (accessorPath E) then w
  else if path_exists w l then
    (if can_write w t then mkWorld (update (files w) t prismaClient) (dirs w) else w)
  else if can_mkdir w l then
    (if can_write (mkWorld (files w) (l :: dirs w)) t
     then mkWorld (update (files w) t prismaClient) (l :: dirs w)
     else mkWorld (files w) (l :: dirs w))
  else w.
Proof.
  intros E w l t. subst l t. unfold writeClientPlugin, bind, trycatch, existsSync.
  destruct (path_exists w (accessorPath E)); [reflexivity|]. cbn [negb].
  destruct (path_exists w (cwd E ++ ["lib"])) eqn:Hl; cbn [negb].
  - unfold ret, writeFileSync. destruct (can_write w _); reflexivity.
  - unfold mkdirSync. destruct (can_mkdir w _); [|reflexivity].
    unfold writeFileSync. cbn [files dirs]. destruct (can_write _ _); reflexivity.
Qed.

(** *** The setup gate *)

(** When [SKIP_PRISMA_SETUP] holds a non-empty string (["false"] and ["0"]
    included: the variable is tested for truthiness) or the npm lifecycle
    event is [test], the setup only logs its banner and the skip message:
    whatever the options, it asks nothing, runs nothing and leaves the file
    system as it was. *)
Theorem setupPrismaORM_force_skip : forall E o w,
  (exists s, SKIP_PRISMA_SETUP E = Some s /\ s <> "") \/ npm_lifecycle_event E = Some "test" ->
  setupPrismaORM E o w =
    (Ok tt, w, [EvLog "Setting up Prisma ORM.."; EvError "Skipping Prisma ORM setup."]).
Proof.
  intros E o w H.
  assert (F : force_skip_prisma_setup E = true).
  { unfold force_skip_prisma_setup, truthy, lifecycle_is.
    destruct H as [[s [Hs Hne]]|Ht].
    - rewrite Hs. apply String.eqb_neq in Hne. rewrite Hne. reflexivity.
    - rewrite Ht, orb_true_r. reflexivity. }
  unfold setupPrismaORM. rewrite F. reflexivity.
Qed.

(** In the npm lifecycle events [dev:prepare], [postinstall] and [test] the
    setup never asks the Prisma Studio question, never spawns a process and
    never registers a DevTools tab, whatever the options. *)
Theorem studio_step_lifecycle_gate : forall E o w,
  npm_lifecycle_event E = Some "dev:prepare" \/ npm_lifecycle_event E = Some "postinstall" \/
  npm_lifecycle_event E = Some "test" ->
  Forall (fun e => match e with
                   | EvSpawn _ | EvHook _ => False
                   | EvPrompt n _ => n <> "installStudio"
                   | _ => True
                   end) (trace_of (setupPrismaORM E o w)).
Proof.
  intros E o w Hl.
  assert (F : studio_allowed E = false).
  { unfold studio_allowed, lifecycle_is.
    destruct Hl as [H|[H|H]]; rewrite H; reflexivity. }
  refine ((_ : TraceAll _ (setupPrismaORM E o)) w).
  unfold setupPrismaORM, promptCli, installCli_step, detectCli, promptInitPrisma,
    initPrisma_step, writeToSchema_step, formatSchema_step, promptRunMigration,
    runMigration_step, promptGenerateClient, generateClient_step, writeClientPlugin.
  rewrite F. trace_all; first [exact I | discriminate].
Qed.

(** *** Interactive mode *)


(** *** Schema and client steps *)

(** When the schema path exists (as a file or a directory), the init step
    only tests it and prints its two messages: no question, no command, no
    write, and the file system is unchanged, also under [autoSetupPrisma]. *)
Theorem promptInitPrisma_schema_exists : forall E o w,
  path_exists w (schemaPath E) = true ->
  promptInitPrisma E o w =
    (Ok tt, w, [EvExists (schemaPath E); EvSuccess "Prisma schema file exists.";
                EvLog schemaExistsMsg]).
Proof.
  intros E o w H. unfold promptInitPrisma, bind, existsSync. rewrite H. reflexivity.
Qed.

(** [npx prisma generate] runs only after [npm install @prisma/client]
    succeeded: when the install fails, the step reports it and stops. *)
Theorem generate_needs_installed_client : forall E o w,
  In (EvExec (cmd_generate E)) (trace_of (generateClient_step E o w)) ->
  exists out, snd (exec_oracle E (cmd_install_client E) w) = Some out.
Proof.
  intros E o w H. unfold generateClient_step in H.
  destruct (installClient o && generateClient o); [|destruct H].
  unfold trycatch, bind, execa in H.
  destruct (exec_oracle E (cmd_install_client E) w) as [w1 [out|]]; simpl in *.
  - exists out. reflexivity.
  - repeat destruct H as [H|H]; ev_neq.
Qed.

(** *** The client accessor *)

(** When [lib/prisma.ts] is absent from the project root, the working
    directory exists, its [lib] is no regular file and its [lib/prisma.ts]
    no directory, the accessor step creates [lib] if needed (it is a
    directory afterwards) and writes the client accessor to the working
    directory's [lib/prisma.ts], replacing any file there; no other file
    changes. *)
Theorem writeClientPlugin_creates_accessor : forall E w,
  path_exists w (accessorPath E) = false ->
  is_dir w (cwd E) = true ->
  is_file w (cwd E ++ ["lib"]) = false ->
  is_dir w (cwd E ++ ["lib"; "prisma.ts"]) = false ->
  let r := writeClientPlugin E w in
  is_dir (world_of r) (cwd E ++ ["lib"]) = true /\
  lookup (files (world_of r)) (cwd E ++ ["lib"; "prisma.ts"]) = Some prismaClient /\
  (forall p, p <> cwd E ++ ["lib"; "prisma.ts"] ->
     lookup (files (world_of r)) p = lookup (files w) p) /\
  last (trace_of r) (EvLog "") =
    EvSuccess "Global instance of Prisma Client successfully created within lib/prisma.ts file.".
Proof.
  intros E w Ha Hc Hf Ht r. subst r.
  assert (Hpl : path_exists w (cwd E ++ ["lib"]) = is_dir w (cwd E ++ ["lib"]))
    by (unfold path_exists; rewrite Hf; reflexivity).
  unfold writeClientPlugin, bind, trycatch, existsSync. cbv beta iota. rewrite Ha.
  cbv beta iota delta [negb]. rewrite Hpl.
  destruct (is_dir w (cwd E ++ ["lib"])) eqn:Hl; cbn [negb].
  - assert (Hw : can_write w (cwd E ++ ["lib"; "prisma.ts"]) = true)
      by (unfold can_write; rewrite removelast_lib_file, Hl, Ht; reflexivity).
    unfold ret, writeFileSync. rewrite Hw. simpl.
    split; [exact Hl|].
    split; [apply lookup_update_same|split; [intros; apply lookup_update_other; assumption|reflexivity]].
  - assert (Hm : can_mkdir w (cwd E ++ ["lib"]) = true)
      by (unfold can_mkdir; rewrite removelast_lib, Hc, Hpl; rewrite ?Hl; reflexivity).
    assert (Hw : can_write (mkWorld (files w) ((cwd E ++ ["lib"]) :: dirs w))
                           (cwd E ++ ["lib"; "prisma.ts"]) = true).
    { unfold can_write. rewrite removelast_lib_file, !is_dir_cons.
      rewrite (proj2 (path_eqb_spec _ _) eq_refl).
      rewrite path_eqb_false by (apply not_eq_sym, lib_neq_file).
      change (is_dir (mkWorld (files w) (dirs w))) with (is_dir w). rewrite Ht. reflexivity. }
    unfold mkdirSync, writeFileSync. rewrite Hm. cbv beta iota.
    match goal with |- context [if ?b then _ else _] => replace b with true by (symmetry; exact Hw) end.
    simpl.
    split; [unfold is_dir; simpl; rewrite (proj2 (path_eqb_spec _ _) eq_refl); reflexivity|].
    split; [apply lookup_update_same|split; [intros; apply lookup_update_other; assumption|reflexivity]].
Qed.

(** Running the accessor step a second time leaves the file system as the
    first run left it, wherever the working directory is. *)
Theorem writeClientPlugin_idempotent : forall E w,
  let w1 := world_of (writeClientPlugin E w) in
  world_of (writeClientPlugin E w1) = w1.
Proof.
  intros E w w1. subst w1.
  set (a := accessorPath E). set (l := cwd E ++ ["lib"]). set (t := cwd E ++ ["lib"; "prisma.ts"]).
  assert (Hal : a <> l) by apply accessor_neq_lib.
  assert (Htl : t <> l) by (apply not_eq_sym, lib_neq_file).
  destruct w as [fs ds].
  rewrite (writeClientPlugin_world E (mkWorld fs ds)). fold a l t.
  destruct (path_exists (mkWorld fs ds) a) eqn:Ha;
    [rewrite writeClientPlugin_world; fold a l t; rewrite Ha; reflexivity|].
  destruct (path_exists (mkWorld fs ds) l) eqn:Hl.
  - destruct (can_write (mkWorld fs ds) t) eqn:Hw.
    + rewrite writeClientPlugin_world. fold a l t. cbn [files dirs].
      destruct (list_eq_dec string_dec a t) as [Eat|Nat].
      * rewrite Eat, path_exists_update_same. reflexivity.
      * rewrite path_exists_update_other, Ha by assumption.
        rewrite path_exists_update_other, Hl by (apply not_eq_sym; assumption).
        change (can_write (mkWorld (update fs t prismaClient) ds) t) with (can_write (mkWorld fs ds) t).
        rewrite Hw. cbn [files dirs]. rewrite update_update_same. reflexivity.
    + rewrite writeClientPlugin_world. fold a l t. rewrite Ha, Hl, Hw. reflexivity.
  - destruct (can_mkdir (mkWorld fs ds) l) eqn:Hm;
      [|rewrite writeClientPlugin_world; fold a l t; rewrite Ha, Hl, Hm; reflexivity].
    cbn [files dirs].
    destruct (can_write (mkWorld fs (l :: ds)) t) eqn:Hw.
    + rewrite writeClientPlugin_world. fold a l t. cbn [files dirs].
      destruct (list_eq_dec string_dec a t) as [Eat|Nat].
      * rewrite Eat, path_exists_update_same. reflexivity.
      * rewrite path_exists_update_other, path_exists_mkdir_other, Ha by assumption.
        rewrite path_exists_update_other, path_exists_mkdir_same by (apply not_eq_sym; assumption).
        change (can_write (mkWorld (update fs t prismaClient) (l :: ds)) t)
          with (can_write (mkWorld fs (l :: ds)) t).
        rewrite Hw. cbn [files dirs]. rewrite update_update_same. reflexivity.
    + rewrite writeClientPlugin_world. fold a l t. cbn [files dirs].
      rewrite path_exists_mkdir_other, Ha by assumption.
      rewrite path_exists_mkdir_same, Hw. reflexivity.
Qed.

(** *** What the setup touches *)

(** The setup reads only the schema file, writes only the schema file and
    the working directory's [lib/prisma.ts], and creates only the working
    directory's [lib]. *)
Theorem setupPrismaORM_file_targets : forall E o w,
  Forall (fun e => match e with
                   | EvRead p => p = schemaPath E
                   | EvWrite p _ => p = schemaPath E \/ p = cwd E ++ ["lib"; "prisma.ts"]
                   | EvMkdir p => p = cwd E ++ ["lib"]
                   | _ => True
                   end) (trace_of (setupPrismaORM E o w)).
Proof.
  intros E o w. refine ((_ : TraceAll _ (setupPrismaORM E o)) w).
  unfold_pipeline. trace_all; first [exact I | reflexivity | left; reflexivity | right; reflexivity].
Qed.

(** When the external commands themselves delete no directory and change no
    file other than the schema file and the working directory's
    [lib/prisma.ts], neither does the whole setup: every directory stays
    and every other file keeps its contents. *)
Theorem setupPrismaORM_keeps : forall E o w,
  (forall c w', keeps E w' (fst (exec_oracle E c w'))) ->
  let w' := world_of (setupPrismaORM E o w) in
  (forall p, is_dir w p = true -> is_dir w' p = true) /\
  (forall p, p <> schemaPath E -> p <> cwd E ++ ["lib"; "prisma.ts"] ->
     lookup (files w') p = lookup (files w) p).
Proof.
  intros E o w Hx. change (keeps E w (world_of (setupPrismaORM E o w))).
  revert w. change (Keeps E (setupPrismaORM E o)).
  unfold_pipeline. keeps_all; auto.
Qed.

(** *** The older module version *)

(** Version 1's CLI step always runs [prisma version] first, and runs the
    install command exactly when that fails, the install question is
    confirmed and [installCli] is on. *)
Theorem v1_promptCli_install_gate : forall E o w,
  (exists t, trace_of (V1.promptCli E o w) = EvExec (cmd_version E) :: t) /\
  (In (EvExec (cmd_install_cli E)) (trace_of (V1.promptCli E o w)) <->
     snd (exec_oracle E (cmd_version E) w) = None /\
     prompt_answer E "installPrisma" = true /\ installCli o = true).
Proof.
  intros E o w. unfold V1.promptCli, V1.detectCli, installCli_step.
  unfold trycatch, bind, execa, prompts, ret, success, error, emit, console_log.
  cbv beta.
  destruct (exec_oracle E (cmd_version E) w) as [w1 [out|]]; simpl.
  - split; [eexists; reflexivity|].
    split; [intros H; repeat destruct H as [H|H]; ev_neq|intros [H _]; discriminate].
  - destruct (prompt_answer E "installPrisma"), (installCli o);
      try (destruct (exec_oracle E (cmd_install_cli E) w1) as [w2 [out|]]); simpl;
      (split; [eexists; reflexivity|]);
      (split; [intros H; repeat destruct H as [H|H]; try ev_neq; auto
              |intros [_ [H1 H2]]; try discriminate; auto]).
Qed.

(** Version 1's init step leaves an existing schema path alone (a test and
    two messages, the world unchanged), and runs [npx prisma init] exactly
    when the schema is absent, the question is confirmed and [initPrisma]
    is on. *)
Theorem v1_promptInitPrisma_gate : forall E o w,
  (path_exists w (schemaPath E) = true ->
     V1.promptInitPrisma E o w =
       (Ok tt, w, [EvExists (schemaPath E); EvSuccess "Prisma schema file exists.";
                   EvLog V1.schemaExistsMsg])) /\
  (In (EvExec (V1.cmd_init E)) (trace_of (V1.promptInitPrisma E o w)) <->
     path_exists w (schemaPath E) = false /\
     prompt_answer E "initPrisma" = true /\ initPrisma o = true).
Proof.
  intros E o w.
  assert (Hex : path_exists w (schemaPath E) = true ->
     V1.promptInitPrisma E o w =
       (Ok tt, w, [EvExists (schemaPath E); EvSuccess "Prisma schema file exists.";
                   EvLog V1.schemaExistsMsg])).
  { intros H. unfold V1.promptInitPrisma, bind, existsSync. rewrite H. reflexivity. }
  split; [exact Hex|split].
  - intros Hin.
    destruct (path_exists w (schemaPath E)) eqn:Hp.
    { rewrite (Hex eq_refl) in Hin. simpl in Hin. repeat destruct Hin as [Hin|Hin]; ev_neq. }
    split; [reflexivity|].
    assert (T : TraceAll (fun e => e = EvExec (V1.cmd_init E) ->
                  prompt_answer E "initPrisma" = true /\ initPrisma o = true)
                (V1.promptInitPrisma E o)).
    { unfold V1.promptInitPrisma, V1.initPrisma_step, V1.writeToSchema_step, formatSchema_step.
      trace_all_keep; intros Heq; unfold V1.cmd_init, cmd_format in *;
        try discriminate Heq; try (injection Heq; intros; discriminate); auto. }
    specialize (T w). rewrite Forall_forall in T. exact (T _ Hin eq_refl).
  - intros [Hp [Ha Hf]].
    unfold V1.promptInitPrisma. apply (In_bind_existsSync _ _ _ false); [exact Hp|].
    apply In_bind_r; [apply NT_emit|intros w1]. cbn [negb].
    apply (In_bind_prompts _ _ _ _ _ true); [exact Ha|intros w2].
    apply In_bind_l. unfold V1.initPrisma_step. rewrite Hf.
    apply In_trycatch, In_bind_l, In_execa.
Qed.

(** Version 1's schema step, with [writeToSchema] on, never throws; when the
    schema path can be written the file afterwards holds the trimmed
    previous contents (empty when there were none), two newlines and its
    [Post] model, and nothing else changes; otherwise the failure is
    reported and the world is unchanged. *)
Theorem v1_writeToSchema_appends : forall E o w,
  writeToSchema o = true ->
  let old := match lookup (files w) (schemaPath E) with Some c => utf8_decode c | None => [] end in
  let r := V1.writeToSchema_step E o w in
  res_of r = Ok tt /\
  (can_write w (schemaPath E) = true ->
     lookup (files (world_of r)) (schemaPath E) =
       Some (utf8_encode (trim old ++ js nl ++ js nl ++ js V1.addModel)%list) /\
     (forall p, p <> schemaPath E -> lookup (files (world_of r)) p = lookup (files w) p) /\
     dirs (world_of r) = dirs w) /\
  (can_write w (schemaPath E) = false ->
     world_of r = w /\
     last (trace_of r) (EvLog "") = EvError "Failed to write model to Prisma schema.").
Proof.
  intros E o w F old r. subst r old. unfold V1.writeToSchema_step. rewrite F.
  unfold trycatch, bind, readFileSync, writeFileSync.
  destruct (lookup (files w) (schemaPath E)) as [c|] eqn:Hl; simpl;
  (split; [destruct (can_write w (schemaPath E)); reflexivity|]);
  (split; intros Hc; rewrite Hc; simpl;
   [split; [apply lookup_update_same|split; [intros; apply lookup_update_other; assumption|reflexivity]]
   |split; reflexivity]).
Qed.

(** ** Witnesses of the further properties *)

Lemma setupPrismaORM_force_skip_witness :
  ((exists s, SKIP_PRISMA_SETUP (demo_env_skip (Some "false")) = Some s /\ s <> "") \/
   npm_lifecycle_event (demo_env_skip (Some "false")) = Some "test") /\
  setupPrismaORM (demo_env_skip (Some "false")) (demo_options true false) demo_world_bare =
    (Ok tt, demo_world_bare, [EvLog "Setting up Prisma ORM.."; EvError "Skipping Prisma ORM setup."]).
Proof.
  assert (H : (exists s, SKIP_PRISMA_SETUP (demo_env_skip (Some "false")) = Some s /\ s <> "") \/
              npm_lifecycle_event (demo_env_skip (Some "false")) = Some "test")
    by (left; exists "false"; split; [reflexivity|discriminate]).
  split; [exact H|].
  apply (setupPrismaORM_force_skip (demo_env_skip (Some "false")) (demo_options true false)
           demo_world_bare H).
Defined.

Lemma studio_step_lifecycle_gate_witness :
  npm_lifecycle_event (demo_env (Some "postinstall") true) = Some "postinstall" /\
  Forall (fun e => match e with
                   | EvSpawn _ | EvHook _ => False
                   | EvPrompt n _ => n <> "installStudio"
                   | _ => True
                   end) (trace_of (setupPrismaORM (demo_env (Some "postinstall") true)
                                    (demo_options false false) demo_world_bare)).
Proof.
  split; [reflexivity|].
  apply (studio_step_lifecycle_gate (demo_env (Some "postinstall") true) (demo_options false false)
           demo_world_bare).
  right; left; reflexivity.
Defined.


Lemma promptInitPrisma_schema_exists_witness :
  path_exists demo_world_schema (schemaPath (demo_env None true)) = true /\
  promptInitPrisma (demo_env None true) (demo_options true false) demo_world_schema =
    (Ok tt, demo_world_schema,
     [EvExists (schemaPath (demo_env None true)); EvSuccess "Prisma schema file exists.";
      EvLog schemaExistsMsg]).
Proof.
  split; [vm_compute; reflexivity|].
  apply (promptInitPrisma_schema_exists (demo_env None true) (demo_options true false)
           demo_world_schema).
  vm_compute; reflexivity.
Defined.

Lemma generate_needs_installed_client_witness :
  In (EvExec (cmd_generate (demo_env (Some "dev") true)))
     (trace_of (generateClient_step (demo_env (Some "dev") true) (demo_options false false)
                  demo_world_bare)) /\
  exists out, snd (exec_oracle (demo_env (Some "dev") true)
                     (cmd_install_client (demo_env (Some "dev") true)) demo_world_bare) = Some out.
Proof.
  assert (H : In (EvExec (cmd_generate (demo_env (Some "dev") true)))
     (trace_of (generateClient_step (demo_env (Some "dev") true) (demo_options false false)
                  demo_world_bare)))
    by (vm_compute; right; left; reflexivity).
  split; [exact H|].
  apply (generate_needs_installed_client (demo_env (Some "dev") true) (demo_options false false)
           demo_world_bare H).
Defined.

Lemma writeClientPlugin_creates_accessor_witness :
  is_dir (world_of (writeClientPlugin (demo_env None true) demo_world_bare))
         (demo_root ++ ["lib"]) = true /\
  lookup (files (world_of (writeClientPlugin (demo_env None true) demo_world_bare)))
         (demo_root ++ ["lib"; "prisma.ts"]) = Some prismaClient.
Proof.
  pose proof (writeClientPlugin_creates_accessor (demo_env None true) demo_world_bare
                ltac:(vm_compute; reflexivity) ltac:(vm_compute; reflexivity)
                ltac:(vm_compute; reflexivity) ltac:(vm_compute; reflexivity)) as H.
  cbv zeta in H. split; [exact (proj1 H)|exact (proj1 (proj2 H))].
Defined.

Lemma setupPrismaORM_keeps_witness :
  is_dir demo_world_schema (demo_root ++ ["prisma"]) = true /\
  is_dir (world_of (setupPrismaORM (demo_env (Some "dev") true) (demo_options true false)
                      demo_world_schema)) (demo_root ++ ["prisma"]) = true.
Proof.
  assert (H : is_dir demo_world_schema (demo_root ++ ["prisma"]) = true) by (vm_compute; reflexivity).
  split; [exact H|].
  assert (Hx : forall c w', keeps (demo_env (Some "dev") true) w'
                  (fst (exec_oracle (demo_env (Some "dev") true) c w')))
    by (intros c w'; simpl; destruct (args_eqb (c_args c) ["version"]); apply keeps_refl).
  apply (proj1 (setupPrismaORM_keeps (demo_env (Some "dev") true) (demo_options true false)
                  demo_world_schema Hx)).
  exact H.
Defined.

Lemma v1_promptCli_install_gate_witness :
  In (EvExec (cmd_install_cli (demo_env (Some "dev") false)))
     (trace_of (V1.promptCli (demo_env (Some "dev") false) (demo_options false false)
                  demo_world_bare)).
Proof.
  apply (proj2 (proj2 (v1_promptCli_install_gate (demo_env (Some "dev") false)
                         (demo_options false false) demo_world_bare))).
  split; [|split]; reflexivity.
Defined.

Lemma v1_promptInitPrisma_gate_witness :
  In (EvExec (V1.cmd_init (demo_env (Some "dev") true)))
     (trace_of (V1.promptInitPrisma (demo_env (Some "dev") true) (demo_options false false)
                  demo_world_bare)).
Proof.
  apply (proj2 (proj2 (v1_promptInitPrisma_gate (demo_env (Some "dev") true)
                         (demo_options false false) demo_world_bare))).
  split; [|split]; vm_compute; reflexivity.
Defined.

Lemma v1_writeToSchema_appends_witness :
  writeToSchema (demo_options false false) = true /\
  lookup (files (world_of (V1.writeToSchema_step (demo_env (Some "dev") true)
                             (demo_options false false)
                             (demo_world_schema_with demo_schema_bad))))
         (schemaPath (demo_env (Some "dev") true)) =
    Some ("datasource db {}" ++ String (ascii_of_nat 239) (String (ascii_of_nat 191)
            (String (ascii_of_nat 189) EmptyString)) ++ nl ++ nl ++ V1.addModel)%string.
Proof.
  split; [reflexivity|].
  pose proof (proj1 (proj2 (v1_writeToSchema_appends (demo_env (Some "dev") true)
                              (demo_options false false)
                              (demo_world_schema_with demo_schema_bad) eq_refl))
                ltac:(vm_compute; reflexivity)) as H.
  cbv zeta in H. rewrite (proj1 H). vm_compute. reflexivity.
Defined.
